(** * HandTrackingModule: a shallow embedding of [HandDetector]

    The Python class [HandDetector] of [HandTrackingModule.py] wraps the
    MediaPipe hand-landmark engine.  Its constructor and the methods
    [find_hands], [find_positions], [find_position], [update_fps] and
    [display_fps] are embedded here as computations of a small state-and-exception monad over
    a world made of the adapter object ([self]) and a store of image
    buffers (numpy arrays are mutable and passed by reference, so the store
    and the aliasing are modelled explicitly).

    Conventions.
    - Python [int] is [Z].
    - The clock readings of [update_fps] are Python floats, IEEE 754
      binary64 values: they are modelled by the Standard Library's
      specification of floating-point numbers ([spec_float] at precision 53
      and [emax] 1024), and the subtraction, the division and the
      comparison of [update_fps] are the rounded binary64 operations.
    - The attributes of a landmark are modelled by rationals ([Q]) and
      [landmark.x * w] by the exact product: MediaPipe stores them as
      32-bit floats, whose product with a frame dimension is exact in
      binary64.  The confidence thresholds are only stored.
    - [int(f)] on a float truncates toward zero ([Z.quot]); on an infinity
      it raises [OverflowError], on a NaN [ValueError].
    - The MediaPipe engine and the OpenCV drawing primitives are parameters
      of the development (Section variables); [cv2.flip], [cv2.cvtColor]
      and [ndarray.copy] are modelled by what OpenCV/numpy document. *)

From Stdlib Require Import ZArith QArith Qabs Qround Lia SpecFloat.
From stdpp Require Import base option list gmap strings pretty.

Local Open Scope Z_scope.

(** ** Python values and built-ins *)

(** The elements of the landmark tuples the extractors return:
    [[id, x, y]] or [[id, x, y, z, hand_type]]. *)
Inductive atom : Type :=
  | AInt (n : Z)
  | AFloat (q : Q)
  | AStr (s : string).

(** Exceptions the embedded code can raise.  [InvalidRef] is the model's own:
    it stands for dereferencing a location that holds no buffer, which a
    Python caller cannot do. *)
Inductive exn : Type :=
  | IndexError
  | ZeroDivisionError
  | OverflowError
  | ValueError
  | InvalidRef.

Inductive outcome (A : Type) : Type :=
  | Return (a : A)
  | Raise (e : exn).
Arguments Return {A} a.
Arguments Raise {A} e.

(** [int(f)] for a float [f]: truncation toward zero. *)
Definition py_int (q : Q) : Z := Z.quot (Qnum q) (Z.pos (Qden q)).

(** [f * n] for a float [f] and an int [n]. *)
Definition py_mul_int (q : Q) (n : Z) : Q := (q * inject_Z n)%Q.

(** *** Floats of the clock: binary64 *)

Definition float : Type := spec_float.

(** [float(n)] for the small integers the code converts (0 and 1 here). *)
Definition float_of_int (n : Z) : float := binary_normalize 53 1024 n 0 false.

(** [a - b] and [a / b] on floats, rounded to nearest, ties to even. *)
Definition float_sub : float → float → float := SFsub 53 1024.
Definition float_div : float → float → float := SFdiv 53 1024.

(** [a < b] and [a == b] on floats (false when a NaN is involved). *)
Definition float_lt : float → float → bool := SFltb.
Definition float_eq : float → float → bool := SFeqb.

Definition float_is_zero (f : float) : bool :=
  match f with
  | S754_zero _ => true
  | _ => false
  end.

Definition float_is_finite (f : float) : bool :=
  match f with
  | S754_zero _ | S754_finite _ _ _ => true
  | _ => false
  end.

(** A well-formed binary64 value: the mantissa and the exponent of a finite
    number are in canonical form. *)
Definition float_valid : float → bool := valid_binary 53 1024.

(** The rational a finite float stands for, [(-1)^s * m * 2^e]. *)
Definition float_value (f : float) : Q :=
  match f with
  | S754_finite s m e =>
      match e with
      | Z0 => inject_Z (cond_Zopp s (Z.pos m))
      | Z.pos p => inject_Z (cond_Zopp s (Z.pos m) * 2 ^ Z.pos p)
      | Z.neg p => cond_Zopp s (Z.pos m) # 2 ^ p
      end
  | _ => 0
  end.

(** [int(f)] on a binary64 float. *)
Definition float_int (f : float) : outcome Z :=
  match f with
  | S754_zero _ => Return 0
  | S754_finite _ _ _ => Return (py_int (float_value f))
  | S754_infinity _ => Raise OverflowError
  | S754_nan => Raise ValueError
  end.

(** [a > 0] for a float [a] and the integer 0. *)
Definition py_gt0 (a : float) : bool := float_lt (float_of_int 0) a.

(** The value of the local [fps] of [update_fps]: the integer 0 or a float. *)
Inductive number : Type :=
  | NInt (n : Z)
  | NFloat (f : float).

(** [l[i]] on a Python list: negative indices count from the end, and an
    index outside [-len(l), len(l))] raises [IndexError] ([None] here). *)
Definition py_index {A : Type} (l : list A) (i : Z) : option A :=
  let n := Z.of_nat (length l) in
  if 0 <=? i then l !! Z.to_nat i
  else if - n <=? i then l !! Z.to_nat (n + i)
  else None.

(** [enumerate(l)]. *)
Definition enumerate {A : Type} (l : list A) : list (Z * A) :=
  imap (λ i a, (Z.of_nat i, a)) l.

(** Truth value of an attribute that is [None] or a list. *)
Definition truthy {A : Type} (o : option (list A)) : bool :=
  match o with
  | Some (_ :: _) => true
  | _ => false
  end.

(** ** Images (numpy arrays of shape (h, w, 3), BGR) *)

Definition pixel : Type := (Z * Z * Z)%type.
Definition image : Type := list (list pixel).

(** [img.shape] as the triple [(h, w, c)]. *)
Definition shape (im : image) : Z * Z * Z :=
  (Z.of_nat (length im), Z.of_nat (length (hd [] im)), 3).

(** [cv2.flip(img, flipCode)]: 0 flips around the x-axis, a positive code
    around the y-axis (each row reversed), a negative code around both. *)
Definition cv2_flip (im : image) (flipCode : Z) : image :=
  if flipCode =? 0 then rev im
  else if 0 <? flipCode then map (@rev pixel) im
  else rev (map (@rev pixel) im).

(** [cv2.cvtColor(img, cv2.COLOR_BGR2RGB)]: the first and third channel of
    every pixel are exchanged. *)
Definition cv2_cvtColor_BGR2RGB (im : image) : image :=
  map (map (λ p : pixel, let '(b, g, r) := p in (r, g, b))) im.

(** ** MediaPipe results *)

Record NormalizedLandmark : Type := mkLandmark {
  lm_x : Q;
  lm_y : Q;
  lm_z : Q
}.

Record NormalizedLandmarkList : Type := mkHand {
  landmark : list NormalizedLandmark
}.

Record Classification : Type := mkClassification {
  score : Q;
  label : string
}.

Record ClassificationList : Type := mkHandedness {
  classification : list Classification
}.

(** What [Hands.process] returns: both attributes are [None] when no hand
    is detected. *)
Record SolutionOutputs : Type := mkOutputs {
  multi_hand_landmarks : option (list NormalizedLandmarkList);
  multi_handedness : option (list ClassificationList)
}.

(** [self.results and self.results.multi_hand_landmarks]: [self.results] is
    [None] before the first frame and a (truthy) result object afterwards. *)
Definition has_hands (res : option SolutionOutputs) : bool :=
  match res with
  | None => false
  | Some r => truthy (multi_hand_landmarks r)
  end.

Definition loc : Type := positive.

(** ** The adapter, the world and the monad *)

Section HandDetector.

(** The external engine: the state of a [mp.solutions.hands.Hands] object,
    its constructor, its per-frame inference (which may update the tracker
    state), and the drawing utilities of MediaPipe and OpenCV, which write
    into the buffer they are given. *)
Variable Hands : Type.
Variable Hands_new : bool → Z → Q → Q → Hands.
Variable Hands_process : Hands → image → Hands * SolutionOutputs.
Variable draw_landmarks : image → NormalizedLandmarkList → image.
Variable cv2_circle : image → Z * Z → Z → pixel → Z → image.
Variable cv2_putText : image → string → Z * Z → Z → Q → pixel → Z → image.

(** The instance attributes set by [__init__]. *)
Record HandDetector : Type := mkDetector {
  mode : bool;
  max_hands : Z;
  detection_conf : Q;
  tracking_conf : Q;
  hands : Hands;
  results : option SolutionOutputs;
  prev_time : float;
  current_time : float;
  fps : Z
}.

Definition set_hands (e : Hands) (s : HandDetector) : HandDetector :=
  mkDetector (mode s) (max_hands s) (detection_conf s) (tracking_conf s)
             e (results s) (prev_time s) (current_time s) (fps s).
Definition set_results (r : option SolutionOutputs) (s : HandDetector) : HandDetector :=
  mkDetector (mode s) (max_hands s) (detection_conf s) (tracking_conf s)
             (hands s) r (prev_time s) (current_time s) (fps s).
Definition set_prev_time (t : float) (s : HandDetector) : HandDetector :=
  mkDetector (mode s) (max_hands s) (detection_conf s) (tracking_conf s)
             (hands s) (results s) t (current_time s) (fps s).
Definition set_current_time (t : float) (s : HandDetector) : HandDetector :=
  mkDetector (mode s) (max_hands s) (detection_conf s) (tracking_conf s)
             (hands s) (results s) (prev_time s) t (fps s).
Definition set_fps (n : Z) (s : HandDetector) : HandDetector :=
  mkDetector (mode s) (max_hands s) (detection_conf s) (tracking_conf s)
             (hands s) (results s) (prev_time s) (current_time s) n.

(** The world a method call runs in: the adapter object and the store of
    image buffers, addressed by location. *)
Record World : Type := mkWorld {
  self : HandDetector;
  heap : gmap loc image
}.

Definition M (A : Type) : Type := World → outcome A * World.

Definition ret {A : Type} (a : A) : M A := λ W, (Return a, W).

Definition raise {A : Type} (e : exn) : M A := λ W, (Raise e, W).

Definition bind {A B : Type} (m : M A) (k : A → M B) : M B :=
  λ W, match m W with
       | (Return a, W') => k a W'
       | (Raise e, W') => (Raise e, W')
       end.

Notation "x <- c1 ;; c2" := (bind c1 (λ x, c2))
  (at level 100, c1 at next level, right associativity).
Notation "c1 ;; c2" := (bind c1 (λ _, c2))
  (at level 100, right associativity).

Definition get_self : M HandDetector := λ W, (Return (self W), W).

Definition modify_self (f : HandDetector → HandDetector) : M unit :=
  λ W, (Return tt, mkWorld (f (self W)) (heap W)).

Definition load (l : loc) : M image :=
  λ W, match heap W !! l with
       | Some im => (Return im, W)
       | None => (Raise InvalidRef, W)
       end.

Definition store (l : loc) (im : image) : M unit :=
  λ W, (Return tt, mkWorld (self W) (<[l := im]> (heap W))).

(** A new array object: a location the store does not hold yet. *)
Definition alloc (im : image) : M loc :=
  λ W, let l := fresh (dom (heap W)) in
       (Return l, mkWorld (self W) (<[l := im]> (heap W))).

(** [for a in l: acc = body(acc, a)], the loop-carried locals in [acc]. *)
Fixpoint for_in {A S : Type} (l : list A) (body : S → A → M S) (acc : S) : M S :=
  match l with
  | [] => ret acc
  | a :: l' => acc' <- body acc a ;; for_in l' body acc'
  end.

(** [l[i]], raising [IndexError] out of range. *)
Definition getitem {A : Type} (l : list A) (i : Z) : M A :=
  match py_index l i with
  | Some a => ret a
  | None => raise IndexError
  end.

(** [n / d] on floats. *)
Definition py_div (n d : float) : M float :=
  if float_is_zero d then raise ZeroDivisionError else ret (float_div n d).

(** [int(x)] on an integer or a float. *)
Definition py_int_number (x : number) : M Z :=
  match x with
  | NInt n => ret n
  | NFloat f =>
      match float_int f with
      | Return n => ret n
      | Raise e => raise e
      end
  end.

(** *** Library calls on buffers *)

(** [img.copy()] *)
Definition ndarray_copy (img : loc) : M loc :=
  im <- load img ;; alloc im.

(** [img.shape] *)
Definition ndarray_shape (img : loc) : M (Z * Z * Z) :=
  im <- load img ;; ret (shape im).

(** [cv2.flip(img, code)] returns a new array. *)
Definition cv2_flip_call (img : loc) (flipCode : Z) : M loc :=
  im <- load img ;; alloc (cv2_flip im flipCode).

(** [cv2.cvtColor(img, cv2.COLOR_BGR2RGB)] returns a new array. *)
Definition cv2_cvtColor_call (img : loc) : M loc :=
  im <- load img ;; alloc (cv2_cvtColor_BGR2RGB im).

(** [self.hands.process(img_rgb)] *)
Definition hands_process_call (img_rgb : loc) : M SolutionOutputs :=
  im <- load img_rgb ;;
  s <- get_self ;;
  let '(e, res) := Hands_process (hands s) im in
  modify_self (set_hands e) ;;
  ret res.

(** [self.mp_draw.draw_landmarks(img, hand_landmarks, HAND_CONNECTIONS)]
    draws into [img]. *)
Definition draw_landmarks_call (img : loc) (hand_landmarks : NormalizedLandmarkList) : M unit :=
  im <- load img ;; store img (draw_landmarks im hand_landmarks).

Definition FILLED : Z := -1.

(** [cv2.circle(img, center, radius, color, thickness)] draws into [img]. *)
Definition cv2_circle_call (img : loc) (center : Z * Z) (radius : Z)
    (color : pixel) (thickness : Z) : M unit :=
  im <- load img ;; store img (cv2_circle im center radius color thickness).

(** [cv2.putText(img, text, org, fontFace, fontScale, color, thickness)]
    draws into [img]. *)
Definition cv2_putText_call (img : loc) (text : string) (org : Z * Z) (fontFace : Z)
    (fontScale : Q) (color : pixel) (thickness : Z) : M unit :=
  im <- load img ;;
  store img (cv2_putText im text org fontFace fontScale color thickness).

(** The hands of a stored result, read under the guard [has_hands]. *)
Definition hands_of (res : option SolutionOutputs) : list NormalizedLandmarkList :=
  match res with
  | Some r => default [] (multi_hand_landmarks r)
  | None => []
  end.

Definition handedness_of (res : option SolutionOutputs) : option (list ClassificationList) :=
  match res with
  | Some r => multi_handedness r
  | None => None
  end.

(** ** The methods of [HandDetector] *)

Definition __init__ (mode : bool) (max_hands : Z)
    (detection_confidence tracking_confidence : Q) : HandDetector :=
  {| mode := mode;
     max_hands := max_hands;
     detection_conf := detection_confidence;
     tracking_conf := tracking_confidence;
     hands := Hands_new mode max_hands detection_confidence tracking_confidence;
     results := None;
     prev_time := float_of_int 0;
     current_time := float_of_int 0;
     fps := 0 |}.

Definition find_hands (img : loc) (draw flip_type : bool) : M loc :=
  img_output <- ndarray_copy img ;;
  img_output <- (if flip_type then cv2_flip_call img_output 1
                 else ret img_output) ;;
  img_rgb <- cv2_cvtColor_call img_output ;;
  res <- hands_process_call img_rgb ;;
  modify_self (set_results (Some res)) ;;
  s <- get_self ;;
  (if has_hands (results s) && draw then
     for_in (hands_of (results s))
            (λ _ hand_landmarks, draw_landmarks_call img_output hand_landmarks) tt
   else ret tt) ;;
  ret img_output.

Definition find_positions (img : loc) : M (list (list (list atom))) :=
  let all_hands := [] in
  shp <- ndarray_shape img ;;
  let '(h, w, c) := shp in
  s <- get_self ;;
  if has_hands (results s) then
    for_in (enumerate (hands_of (results s)))
      (λ all_hands '(hand_idx, hand_landmarks),
         let hand_type := "Right"%string in
         s <- get_self ;;
         hand_type <- (if truthy (handedness_of (results s)) then
                         cl <- getitem (default [] (handedness_of (results s))) hand_idx ;;
                         c0 <- getitem (classification cl) 0 ;;
                         ret (label c0)
                       else ret hand_type) ;;
         let hand_landmarks_list := [] in
         hand_landmarks_list <-
           for_in (enumerate (landmark hand_landmarks))
             (λ hand_landmarks_list '(lm_idx, lmk),
                let px := py_int (py_mul_int (lm_x lmk) w) in
                let py := py_int (py_mul_int (lm_y lmk) h) in
                ret (hand_landmarks_list ++
                     [[AInt lm_idx; AInt px; AInt py; AFloat (lm_z lmk); AStr hand_type]]))
             hand_landmarks_list ;;
         ret (all_hands ++ [hand_landmarks_list]))
      all_hands
  else ret all_hands.

Definition find_position (img : loc) (hand_no : Z) (draw : bool) (draw_radius : Z)
    : M (list (list atom)) :=
  let landmark_list := [] in
  s <- get_self ;;
  if has_hands (results s) then
    if hand_no <? Z.of_nat (length (hands_of (results s))) then
      hand <- getitem (hands_of (results s)) hand_no ;;
      for_in (enumerate (landmark hand))
        (λ landmark_list '(idx, lmk),
           shp <- ndarray_shape img ;;
           let '(h, w, c) := shp in
           let px := py_int (py_mul_int (lm_x lmk) w) in
           let py := py_int (py_mul_int (lm_y lmk) h) in
           let landmark_list := landmark_list ++ [[AInt idx; AInt px; AInt py]] in
           (if draw then cv2_circle_call img (px, py) draw_radius (255, 0, 255) FILLED
            else ret tt) ;;
           ret landmark_list)
        landmark_list
    else ret landmark_list
  else ret landmark_list.

(** [update_fps], with the reading of [time.time()] as the argument [now].
    The attributes [prev_time] and [current_time], which [__init__] sets to
    the integer 0, hold the float 0.0 until the first reading. *)
Definition update_fps (now : float) : M Z :=
  modify_self (set_current_time now) ;;
  s <- get_self ;;
  fps' <- (if py_gt0 (prev_time s) then
             q <- py_div (float_of_int 1) (float_sub (current_time s) (prev_time s)) ;;
             ret (NFloat q)
           else ret (NInt 0)) ;;
  s <- get_self ;;
  modify_self (set_prev_time (current_time s)) ;;
  n <- py_int_number fps' ;;
  modify_self (set_fps n) ;;
  s <- get_self ;;
  ret (fps s).

(** [display_fps]; the text is the f-string [f"FPS: {self.fps}"], with the
    decimal form of the integer rate. *)
Definition display_fps (img : loc) (position : Z * Z) (font : Z) (scale : Q)
    (color : pixel) (thickness : Z) : M loc :=
  s <- get_self ;;
  cv2_putText_call img ("FPS: " +:+ pretty (fps s)) position font scale color thickness ;;
  ret img.

End HandDetector.

Arguments mkDetector {Hands}.
Arguments mkWorld {Hands}.
Arguments self {Hands}.
Arguments heap {Hands}.
Arguments mode {Hands}.
Arguments max_hands {Hands}.
Arguments detection_conf {Hands}.
Arguments tracking_conf {Hands}.
Arguments hands {Hands}.
Arguments results {Hands}.
Arguments prev_time {Hands}.
Arguments current_time {Hands}.
Arguments fps {Hands}.
Arguments set_hands {Hands}.
Arguments set_results {Hands}.
Arguments set_prev_time {Hands}.
Arguments set_current_time {Hands}.
Arguments set_fps {Hands}.
Arguments ret {Hands A}.
Arguments raise {Hands A}.
Arguments bind {Hands A B}.
Arguments get_self {Hands}.
Arguments modify_self {Hands}.
Arguments load {Hands}.
Arguments store {Hands}.
Arguments alloc {Hands}.
Arguments for_in {Hands A S}.
Arguments getitem {Hands A}.
Arguments py_div {Hands}.
Arguments py_int_number {Hands}.
Arguments ndarray_copy {Hands}.
Arguments ndarray_shape {Hands}.
Arguments cv2_flip_call {Hands}.
Arguments cv2_cvtColor_call {Hands}.
Arguments hands_process_call {Hands}.
Arguments draw_landmarks_call {Hands}.
Arguments cv2_circle_call {Hands}.
Arguments __init__ {Hands}.
Arguments find_hands {Hands}.
Arguments find_positions {Hands}.
Arguments find_position {Hands}.
Arguments update_fps {Hands}.
Arguments cv2_putText_call {Hands}.
Arguments display_fps {Hands}.

Notation "x <- c1 ;; c2" := (bind c1 (λ x, c2))
  (at level 100, c1 at next level, right associativity).
Notation "c1 ;; c2" := (bind c1 (λ _, c2))
  (at level 100, right associativity).

(** ** Specification-side definitions *)

(** The tuple [find_positions] builds for one landmark. *)
Definition landmark_tuple (h w : Z) (hand_type : string)
    (p : Z * NormalizedLandmark) : list atom :=
  [AInt p.1;
   AInt (py_int (py_mul_int (lm_x p.2) w));
   AInt (py_int (py_mul_int (lm_y p.2) h));
   AFloat (lm_z p.2);
   AStr hand_type].

(** The tuple [find_position] builds for one landmark. *)
Definition position_tuple (h w : Z) (p : Z * NormalizedLandmark) : list atom :=
  [AInt p.1;
   AInt (py_int (py_mul_int (lm_x p.2) w));
   AInt (py_int (py_mul_int (lm_y p.2) h))].

(** The label [find_positions] resolves for the hand at [hand_idx]; the
    default covers the indices whose lookup raises. *)
Definition hand_type_at (res : option SolutionOutputs) (hand_idx : Z) : string :=
  if truthy (handedness_of res) then
    match py_index (default [] (handedness_of res)) hand_idx with
    | Some cl =>
        match py_index (classification cl) 0 with
        | Some c0 => label c0
        | None => "Right"%string
        end
    | None => "Right"%string
    end
  else "Right"%string.

(** Handedness data, when present, has an entry with at least one
    classification for each of the first [n] hands. *)
Definition handedness_covers (res : option SolutionOutputs) (n : nat) : Prop :=
  truthy (handedness_of res) = true →
  ∀ i : nat, (i < n)%nat →
    ∃ cl c0 cs, default [] (handedness_of res) !! i = Some cl
                ∧ classification cl = c0 :: cs.

(** Every landmark has normalized coordinates in [0, 1). *)
Definition normalized (hand : NormalizedLandmarkList) : Prop :=
  Forall (λ lmk, (0 <= lm_x lmk)%Q ∧ (lm_x lmk < 1)%Q
                 ∧ (0 <= lm_y lmk)%Q ∧ (lm_y lmk < 1)%Q) (landmark hand).

(** The pixel coordinates of a landmark tuple lie in [0,w) x [0,h). *)
Definition in_frame (h w : Z) (t : list atom) : Prop :=
  match t with
  | AInt _ :: AInt px :: AInt py :: _ => 0 <= px < w ∧ 0 <= py < h
  | _ => False
  end.

(** A tuple carries the handedness label [s] (fifth component). *)
Definition has_label (s : string) (t : list atom) : Prop :=
  t !! 4%nat = Some (AStr s).

(** A tuple is [[id, x, y]]: three integers and nothing else. *)
Definition is_id_x_y (t : list atom) : Prop :=
  ∃ i px py, t = [AInt i; AInt px; AInt py].

(** The rate [update_fps] computes from the recorded timestamp and the new
    reading: [1 / (now - prev)], both operations in binary64. *)
Definition rate_of (prev now : float) : float :=
  float_div (float_of_int 1) (float_sub now prev).

(** A float that, unless it is a NaN, has the sign bit [s]. *)
Definition float_signed (s : bool) (f : float) : Prop :=
  match f with
  | S754_zero s' | S754_infinity s' | S754_finite s' _ _ => s' = s
  | S754_nan => True
  end.

(** [n] is an integer nearest to [q]. *)
Definition nearest (q : Q) (n : Z) : Prop :=
  (Qabs (q - inject_Z n) <= 1 # 2)%Q.

(** The overlay [find_hands] draws: one skeleton per detected hand. *)
Definition overlay (draw_landmarks : image → NormalizedLandmarkList → image)
    (draw : bool) (res : SolutionOutputs) (im : image) : image :=
  if has_hands (Some res) && draw
  then fold_left draw_landmarks (hands_of (Some res)) im
  else im.

(** The value [find_positions] computes from a stored result and the
    height and width of the image. *)
Definition hand_records (h w : Z) (res : option SolutionOutputs)
    : list (list (list atom)) :=
  map (λ p : Z * NormalizedLandmarkList,
         map (landmark_tuple h w (hand_type_at res p.1)) (enumerate (landmark p.2)))
      (enumerate (hands_of res)).

(** The value [find_position] computes for one hand. *)
Definition position_tuples (h w : Z) (hand : NormalizedLandmarkList)
    : list (list atom) :=
  map (position_tuple h w) (enumerate (landmark hand)).

(** The loop of [find_position] as a function of the landmarks left, the
    current content of the image and the list built so far: it returns the
    final list and the final content (the shape is read again at every
    landmark, after the circles drawn before it). *)
Fixpoint position_loop (cv2_circle : image → Z * Z → Z → pixel → Z → image)
    (draw : bool) (draw_radius : Z) (lms : list (Z * NormalizedLandmark))
    (im : image) (acc : list (list atom)) : list (list atom) * image :=
  match lms with
  | [] => (acc, im)
  | p :: lms' =>
      let h := Z.of_nat (length im) in
      let w := Z.of_nat (length (hd [] im)) in
      let px := py_int (py_mul_int (lm_x p.2) w) in
      let py := py_int (py_mul_int (lm_y p.2) h) in
      position_loop cv2_circle draw draw_radius lms'
        (if draw then cv2_circle im (px, py) draw_radius (255, 0, 255) FILLED else im)
        (acc ++ [position_tuple h w p])
  end.

(** A drawing primitive that keeps the shape of the buffer it draws into. *)
Definition keeps_shape (cv2_circle : image → Z * Z → Z → pixel → Z → image) : Prop :=
  ∀ im center radius color thickness,
    shape (cv2_circle im center radius color thickness) = shape im.

(** The circles [find_position] draws into an image of height [h] and
    width [w], one per landmark, in the order of the landmarks. *)
Definition draw_circles (cv2_circle : image → Z * Z → Z → pixel → Z → image)
    (h w : Z) (draw_radius : Z) (lms : list (Z * NormalizedLandmark))
    (im : image) : image :=
  fold_left
    (λ im p, cv2_circle im (py_int (py_mul_int (lm_x p.2) w),
                            py_int (py_mul_int (lm_y p.2) h))
                        draw_radius (255, 0, 255) FILLED)
    lms im.

(** A skeleton-drawing utility that keeps the shape of the buffer it draws
    into. *)
Definition draw_keeps_shape
    (draw_landmarks : image → NormalizedLandmarkList → image) : Prop :=
  ∀ im hand_landmarks, shape (draw_landmarks im hand_landmarks) = shape im.

(** The text [display_fps] writes for a detector. *)
Definition fps_text (n : Z) : string := "FPS: " +:+ pretty n.

(** The copy [find_hands] works on, given the flag and the input content. *)
Definition oriented (flip_type : bool) (im : image) : image :=
  if flip_type then cv2_flip im 1 else im.

(** A computation that reads the world and leaves every part of it (the
    adapter's attributes and every buffer) as it found it, also when it
    raises. *)
Definition readonly {Hands A : Type} (m : M Hands A) : Prop :=
  ∀ W, (m W).2 = W.

(** ** A concrete engine and frames, for running the methods *)

Module Demo.

(** Twenty-one copies of one landmark. *)
Definition hand_at (x y : Q) : NormalizedLandmarkList :=
  mkHand (replicate 21 (mkLandmark x y 0)).

Definition one_hand (x y : Q) (handed : option (list ClassificationList))
    : SolutionOutputs :=
  mkOutputs (Some [hand_at x y]) handed.

Definition left_label : option (list ClassificationList) :=
  Some [mkHandedness [mkClassification (9 # 10) "Left"]].

Definition two_hands : SolutionOutputs :=
  mkOutputs (Some [hand_at (1 # 4) (1 # 4); hand_at (3 # 4) (3 # 4)])
    (Some [mkHandedness [mkClassification (9 # 10) "Left"];
           mkHandedness [mkClassification (8 # 10) "Right"]]).

(** An engine without tracker state that reports one centred hand on
    every frame. *)
Definition process (e : unit) (im : image) : unit * SolutionOutputs :=
  (e, one_hand (1 # 2) (1 # 2) left_label).

(** Drawing utilities that paint the whole buffer in one colour. *)
Definition paint (color : pixel) (im : image) : image :=
  map (map (λ _ : pixel, color)) im.

Definition draw_landmarks (im : image) (hl : NormalizedLandmarkList) : image :=
  paint (0, 255, 0) im.

Definition cv2_circle (im : image) (center : Z * Z) (radius : Z)
    (color : pixel) (thickness : Z) : image :=
  paint color im.

(** A text renderer that paints the buffer and leaves the length of the
    text in the first channel of every pixel. *)
Definition cv2_putText (im : image) (text : string) (org : Z * Z) (fontFace : Z)
    (fontScale : Q) (color : pixel) (thickness : Z) : image :=
  paint (Z.of_nat (String.length text), color.1.2, color.2) im.

(** A result whose handedness list covers only the first of two hands. *)
Definition misaligned : SolutionOutputs :=
  mkOutputs (Some [hand_at (1 # 4) (1 # 4); hand_at (3 # 4) (3 # 4)]) left_label.

(** A 2x2 frame with four different pixels. *)
Definition frame : image :=
  [[(1, 2, 3); (4, 5, 6)]; [(7, 8, 9); (10, 11, 12)]].

(** The float nearest to a rational, as Python computes [num / den]. *)
Definition reading (q : Q) : float :=
  float_div (float_of_int (Qnum q)) (float_of_int (Z.pos (Qden q))).

Definition detector (res : option SolutionOutputs) (prev : Q) : HandDetector unit :=
  mkDetector false 2 (1 # 2) (1 # 2) tt res (reading prev) (float_of_int 0) 0.

(** A world holding [frame] at location 1. *)
Definition world (res : option SolutionOutputs) (prev : Q) : World unit :=
  mkWorld (detector res prev) {[ 1%positive := frame ]}.

End Demo.

(** * Properties *)

(** ** Arithmetic of [int()] *)

Lemma py_int_nonneg_floor (q : Q) : (0 <= q)%Q → py_int q = Qfloor q.
Proof.
  destruct q as [a b]. unfold Qle, py_int, Qfloor. simpl. intros Ha.
  apply Z.quot_div_nonneg; lia.
Qed.

Lemma py_int_mul_range (x : Q) (w : Z) :
  (0 <= x)%Q → (x < 1)%Q → 0 < w → 0 <= py_int (py_mul_int x w) < w.
Proof.
  destruct x as [a b]. unfold Qle, Qlt, py_int, py_mul_int. simpl.
  intros Ha Hb Hw. rewrite Pos.mul_1_r.
  rewrite Z.quot_div_nonneg by nia. split.
  - apply Z.div_pos; nia.
  - apply Z.div_lt_upper_bound; nia.
Qed.

Lemma py_int_proper (p q : Q) : (p == q)%Q → py_int p = py_int q.
Proof.
  destruct p as [a b], q as [c d]. unfold Qeq, py_int. simpl. intros H.
  rewrite <- (Z.quot_mul_cancel_r a (Z.pos b) (Z.pos d)) by lia.
  rewrite <- (Z.quot_mul_cancel_r c (Z.pos d) (Z.pos b)) by lia.
  rewrite H. f_equal. lia.
Qed.

(** Truncation is never more than one away from a nearest integer. *)
Lemma py_int_near (q : Q) (n : Z) : nearest q n → Z.abs (py_int q - n) <= 1.
Proof.
  destruct q as [a b]. unfold nearest, py_int, Qle. simpl.
  rewrite Pos.mul_1_r. intros H.
  pose proof (Z.quot_rem' a (Z.pos b)) as Hqr.
  pose proof (Z.rem_bound_abs a (Z.pos b) ltac:(lia)) as Hr.
  set (k := a ÷ Z.pos b) in *. set (r := Z.rem a (Z.pos b)) in *.
  assert (Hb : 0 < Z.pos b) by lia.
  set (B := Z.pos b) in *.
  nia.
Qed.

(** ** Python list built-ins *)

Lemma py_index_nonneg {A : Type} (l : list A) (i : nat) :
  py_index l (Z.of_nat i) = l !! i.
Proof.
  unfold py_index. destruct (Z.leb_spec 0 (Z.of_nat i)); [| lia].
  by rewrite Nat2Z.id.
Qed.

Lemma py_index_negative {A : Type} (l : list A) (i : Z) :
  - Z.of_nat (length l) <= i < 0 →
  py_index l i = l !! Z.to_nat (Z.of_nat (length l) + i).
Proof.
  intros H. unfold py_index.
  destruct (Z.leb_spec 0 i); [lia |].
  destruct (Z.leb_spec (- Z.of_nat (length l)) i); [done | lia].
Qed.

Lemma py_index_below {A : Type} (l : list A) (i : Z) :
  i < - Z.of_nat (length l) → py_index l i = None.
Proof.
  intros H. unfold py_index.
  destruct (Z.leb_spec 0 i); [lia |].
  destruct (Z.leb_spec (- Z.of_nat (length l)) i); [lia | done].
Qed.

Lemma py_index_minus_one {A : Type} (l : list A) : py_index l (-1) = last l.
Proof.
  destruct l as [| a l]; [done |].
  rewrite py_index_negative by (simpl; lia).
  rewrite last_lookup. f_equal. simpl. lia.
Qed.

Lemma length_enumerate {A : Type} (l : list A) : length (enumerate l) = length l.
Proof. unfold enumerate. apply length_imap. Qed.

Lemma enumerate_lookup {A : Type} (l : list A) (i : nat) (p : Z * A) :
  enumerate l !! i = Some p → p.1 = Z.of_nat i ∧ l !! i = Some p.2.
Proof.
  unfold enumerate. rewrite list_lookup_imap.
  destruct (l !! i); simpl; [| done]. intros [= <-]. done.
Qed.

(** ** Flipping *)

Lemma cv2_flip_horizontal_involutive (im : image) :
  cv2_flip (cv2_flip im 1) 1 = im.
Proof.
  unfold cv2_flip. simpl. rewrite map_map.
  induction im as [| row im IH]; simpl; [done |].
  by rewrite rev_involutive, IH.
Qed.

Lemma cv2_flip_shape (im : image) : shape (cv2_flip im 1) = shape im.
Proof.
  unfold cv2_flip, shape. simpl. rewrite length_map.
  destruct im as [| row im]; simpl; [done |]. by rewrite length_rev.
Qed.

Section Correctness.

Context {Hands : Type}.
Variable Hands_new : bool → Z → Q → Q → Hands.
Variable Hands_process : Hands → image → Hands * SolutionOutputs.
Variable draw_landmarks : image → NormalizedLandmarkList → image.
Variable cv2_circle : image → Z * Z → Z → pixel → Z → image.

Implicit Types (W : World Hands) (img : loc) (im : image) (draw : bool)
  (draw_radius hand_no : Z).

(** *** Loops whose body only reads *)

Lemma for_in_collect {A B : Type} (l : list A)
    (body : list B → A → M Hands (list B)) (g : A → B) W :
  (∀ a acc, a ∈ l → body acc a W = (Return (acc ++ [g a]), W)) →
  ∀ acc, for_in l body acc W = (Return (acc ++ map g l), W).
Proof.
  induction l as [| a l IH]; intros Hbody acc; simpl.
  - by rewrite app_nil_r.
  - unfold bind. rewrite Hbody by left.
    rewrite IH by (intros; apply Hbody; by right).
    by rewrite <- app_assoc.
Qed.

Lemma for_in_collect_nil {A B : Type} (l : list A)
    (body : list B → A → M Hands (list B)) (g : A → B) W :
  (∀ a acc, a ∈ l → body acc a W = (Return (acc ++ [g a]), W)) →
  for_in l body [] W = (Return (map g l), W).
Proof. intros Hbody. by rewrite (for_in_collect l body g). Qed.

Lemma bind_run {A B : Type} (m : M Hands A) (k : A → M Hands B) W a W' :
  m W = (Return a, W') → bind m k W = k a W'.
Proof. intros H. unfold bind. by rewrite H. Qed.

Lemma bind_raise {A B : Type} (m : M Hands A) (k : A → M Hands B) W e W' :
  m W = (Raise e, W') → bind m k W = (Raise e, W').
Proof. intros H. unfold bind. by rewrite H. Qed.

Lemma load_run W img im : heap W !! img = Some im → load img W = (Return im, W).
Proof. intros H. unfold load. by rewrite H. Qed.

Lemma ndarray_shape_run W img im :
  heap W !! img = Some im → ndarray_shape img W = (Return (shape im), W).
Proof.
  intros H. unfold ndarray_shape. by rewrite (bind_run _ _ W im W) by by apply load_run.
Qed.

(** *** Read-only computations *)

Lemma readonly_ret {A : Type} (a : A) : readonly (ret (Hands := Hands) a).
Proof. by intros W. Qed.

Lemma readonly_raise {A : Type} (e : exn) :
  readonly (raise (Hands := Hands) (A := A) e).
Proof. by intros W. Qed.

Lemma readonly_bind {A B : Type} (m : M Hands A) (k : A → M Hands B) :
  readonly m → (∀ a, readonly (k a)) → readonly (bind m k).
Proof.
  intros Hm Hk W. unfold bind. specialize (Hm W).
  destruct (m W) as [[a | e] W']; simpl in *; subst W'; [apply Hk | done].
Qed.

Lemma readonly_get_self : readonly (get_self (Hands := Hands)).
Proof. by intros W. Qed.

Lemma readonly_load (l : loc) : readonly (load (Hands := Hands) l).
Proof. intros W. unfold load. by destruct (heap W !! l). Qed.

Lemma readonly_getitem {A : Type} (l : list A) (i : Z) :
  readonly (getitem (Hands := Hands) l i).
Proof. unfold getitem. destruct (py_index l i); [apply readonly_ret | apply readonly_raise]. Qed.

Lemma readonly_ndarray_shape img : readonly (ndarray_shape (Hands := Hands) img).
Proof.
  apply readonly_bind; [apply readonly_load | intros; apply readonly_ret].
Qed.

Lemma readonly_for_in {A S : Type} (l : list A) (body : S → A → M Hands S) :
  (∀ acc a, readonly (body acc a)) → ∀ acc, readonly (for_in l body acc).
Proof.
  intros Hbody. induction l as [| a l IH]; intros acc; simpl.
  - apply readonly_ret.
  - apply readonly_bind; [apply Hbody | intros; apply IH].
Qed.

Lemma find_positions_readonly img : readonly (find_positions (Hands := Hands) img).
Proof.
  unfold find_positions.
  apply readonly_bind; [apply readonly_ndarray_shape |].
  intros [[h w] c]. apply readonly_bind; [apply readonly_get_self |].
  intros s. destruct (has_hands (results s)); [| apply readonly_ret].
  apply readonly_for_in. intros acc [hand_idx hand_landmarks].
  apply readonly_bind; [apply readonly_get_self |]. intros s'.
  apply readonly_bind.
  - destruct (truthy (handedness_of (results s'))); [| apply readonly_ret].
    apply readonly_bind; [apply readonly_getitem |]. intros cl.
    apply readonly_bind; [apply readonly_getitem |]. intros c0.
    apply readonly_ret.
  - intros hand_type. apply readonly_bind; [| intros; apply readonly_ret].
    apply readonly_for_in. intros acc' [lm_idx lmk]. apply readonly_ret.
Qed.

(** C8. [find_positions] only reads: whatever the adapter state and the
    image argument, after the call the world is the one before it, that
    is, every attribute of the adapter (stored result, FPS state,
    configuration, engine) and every image buffer, the argument included,
    is unchanged; this holds also when the call raises. *)
Theorem find_positions_pure_read W img :
  (find_positions img W).2 = W.
Proof. apply find_positions_readonly. Qed.

(** *** The multi-hand extractor *)

Lemma has_hands_false (res : option SolutionOutputs) :
  has_hands res = false → hands_of res = [].
Proof.
  destruct res as [[[[| hd tl] |] handed] |]; simpl; done.
Qed.

(** The guard fails exactly when the result is absent or holds no hands. *)
Lemma has_hands_false_iff (res : option SolutionOutputs) :
  has_hands res = false
  ↔ res = None
    ∨ ∃ r, res = Some r
           ∧ (multi_hand_landmarks r = None ∨ multi_hand_landmarks r = Some []).
Proof.
  split.
  - destruct res as [[[[| hd tl] |] handed] |]; simpl; intros H;
      [right | done | right | left]; eauto.
  - intros [-> | (r & -> & [H | H])]; simpl; [done | |]; by rewrite H.
Qed.

Lemma has_hands_true (res : option SolutionOutputs) :
  hands_of res ≠ [] → has_hands res = true.
Proof.
  destruct res as [[[[| hd tl] |] handed] |]; simpl; done.
Qed.

Lemma elem_of_enumerate {A : Type} (l : list A) (p : Z * A) :
  p ∈ enumerate l → ∃ i : nat, p.1 = Z.of_nat i ∧ l !! i = Some p.2.
Proof.
  intros [i Hi]%list_elem_of_lookup. exists i. by apply enumerate_lookup.
Qed.

(** What [find_positions] returns when the image is live and handedness
    data, if any, covers the detected hands. *)
Lemma find_positions_spec W img im :
  heap W !! img = Some im →
  handedness_covers (results (self W)) (length (hands_of (results (self W)))) →
  find_positions img W
  = (Return (hand_records (Z.of_nat (length im)) (Z.of_nat (length (hd [] im)))
                          (results (self W))), W).
Proof.
  intros Himg Hcov. unfold find_positions, hand_records.
  rewrite (bind_run _ _ W (shape im) W) by by apply ndarray_shape_run.
  unfold shape. rewrite (bind_run _ _ W (self W) W) by done.
  destruct (has_hands (results (self W))) eqn:Hh.
  2:{ by rewrite (has_hands_false _ Hh). }
  apply for_in_collect_nil. intros [hand_idx hand] acc Hin.
  apply elem_of_enumerate in Hin as (i & Hidx & Hi). simpl in Hidx, Hi. subst hand_idx.
  rewrite (bind_run _ _ W (self W) W) by done.
  rewrite (bind_run _ _ W (hand_type_at (results (self W)) (Z.of_nat i)) W).
  - simpl. erewrite bind_run; [done |]. apply for_in_collect_nil.
    by intros [lm_idx lmk] acc' _.
  - unfold hand_type_at.
    destruct (truthy (handedness_of (results (self W)))) eqn:Ht; [| done].
    destruct (Hcov Ht i) as (cl & c0 & cs & Hcl & Hcs).
    { by apply lookup_lt_Some in Hi. }
    rewrite py_index_nonneg, Hcl, Hcs. simpl.
    rewrite (bind_run _ _ W cl W)
      by (unfold getitem; by rewrite py_index_nonneg, Hcl).
    rewrite (bind_run _ _ W c0 W) by (unfold getitem; by rewrite Hcs).
    done.
Qed.

(** *** The single-hand extractor *)

Lemma world_eta W : mkWorld (self W) (heap W) = W.
Proof. by destruct W. Qed.

Lemma find_position_loop img draw draw_radius lms :
  ∀ im acc W,
    heap W !! img = Some im →
    for_in lms
      (λ (landmark_list : list (list atom)) '((idx, lmk) : Z * NormalizedLandmark),
         shp <- ndarray_shape (Hands := Hands) img ;;
         let '(h, w, c) := shp in
         let px := py_int (py_mul_int (lm_x lmk) w) in
         let py := py_int (py_mul_int (lm_y lmk) h) in
         let landmark_list := landmark_list ++ [[AInt idx; AInt px; AInt py]] in
         (if draw then cv2_circle_call cv2_circle img (px, py) draw_radius
                         (255, 0, 255) FILLED
          else ret tt) ;;
         ret landmark_list)
      acc W
    = (Return (position_loop cv2_circle draw draw_radius lms im acc).1,
       if draw
       then mkWorld (self W)
              (<[img := (position_loop cv2_circle draw draw_radius lms im acc).2]> (heap W))
       else W).
Proof.
  induction lms as [| [idx lmk] lms IH]; intros im acc W Himg;
    cbn [for_in position_loop fst snd].
  - unfold ret. f_equal. destruct draw; [| done].
    rewrite insert_id by done. by rewrite world_eta.
  - destruct draw.
    + erewrite bind_run; cycle 1.
      { rewrite (bind_run _ _ W (shape im) W) by by apply ndarray_shape_run.
        unfold shape. erewrite bind_run; [reflexivity |].
        unfold cv2_circle_call. by erewrite bind_run by by apply load_run. }
      erewrite IH; cycle 1.
      { unfold store. cbn [heap]. apply lookup_insert_eq. }
      unfold store. cbn [heap self]. by rewrite insert_insert_eq.
    + erewrite bind_run; cycle 1.
      { rewrite (bind_run _ _ W (shape im) W) by by apply ndarray_shape_run.
        unfold shape. by erewrite bind_run. }
      by erewrite IH.
Qed.

(** What [find_position] returns, and the world it leaves, for an index
    that selects a hand. *)
Lemma find_position_run W img im hand_no hand draw draw_radius :
  heap W !! img = Some im →
  hand_no < Z.of_nat (length (hands_of (results (self W)))) →
  py_index (hands_of (results (self W))) hand_no = Some hand →
  find_position cv2_circle img hand_no draw draw_radius W
  = (Return (position_loop cv2_circle draw draw_radius
               (enumerate (landmark hand)) im []).1,
     if draw
     then mkWorld (self W)
            (<[img := (position_loop cv2_circle draw draw_radius
                         (enumerate (landmark hand)) im []).2]> (heap W))
     else W).
Proof.
  intros Himg Hlt Hidx. unfold find_position.
  rewrite (bind_run _ _ W (self W) W) by done.
  rewrite has_hands_true.
  2:{ intros E. rewrite E in Hidx. by destruct hand_no. }
  destruct (Z.ltb_spec hand_no (Z.of_nat (length (hands_of (results (self W)))))); [| lia].
  rewrite (bind_run _ _ W hand W) by (unfold getitem; by rewrite Hidx).
  by apply find_position_loop.
Qed.

Lemma position_loop_keeps_shape draw draw_radius lms :
  (draw = true → keeps_shape cv2_circle) →
  ∀ im acc,
    (position_loop cv2_circle draw draw_radius lms im acc).1
    = acc ++ map (position_tuple (Z.of_nat (length im)) (Z.of_nat (length (hd [] im)))) lms.
Proof.
  intros Hkeep. induction lms as [| p lms IH]; intros im acc; simpl.
  - by rewrite app_nil_r.
  - rewrite IH, <- app_assoc. simpl. destruct draw; [| done].
    pose proof (Hkeep eq_refl im
      (py_int (py_mul_int (lm_x p.2) (Z.of_nat (length (hd [] im)))),
       py_int (py_mul_int (lm_y p.2) (Z.of_nat (length im))))
      draw_radius (255, 0, 255) FILLED) as Hs.
    unfold shape in Hs. injection Hs as -> ->. done.
Qed.

Lemma position_loop_length draw draw_radius lms :
  ∀ im acc,
    length (position_loop cv2_circle draw draw_radius lms im acc).1
    = (length acc + length lms)%nat.
Proof.
  induction lms as [| p lms IH]; intros im acc; simpl; [lia |].
  rewrite IH, length_app. simpl. lia.
Qed.

Lemma position_loop_id_x_y draw draw_radius lms :
  ∀ im acc,
    Forall is_id_x_y acc →
    Forall is_id_x_y (position_loop cv2_circle draw draw_radius lms im acc).1.
Proof.
  induction lms as [| p lms IH]; intros im acc Hacc; simpl; [done |].
  apply IH. apply Forall_app. split; [done |].
  apply Forall_singleton. unfold is_id_x_y, position_tuple. eauto.
Qed.

(** *** The frame processor *)

Lemma alloc_run W im :
  alloc im W
  = (Return (fresh (dom (heap W))),
     mkWorld (self W) (<[fresh (dom (heap W)) := im]> (heap W))).
Proof. done. Qed.

Lemma fresh_lookup (h : gmap loc image) : h !! fresh (dom h) = None.
Proof. apply not_elem_of_dom, is_fresh. Qed.

Lemma draw_loop (l : loc) (hs : list NormalizedLandmarkList) :
  ∀ im W,
    heap W !! l = Some im →
    for_in hs (λ _ hand_landmarks, draw_landmarks_call draw_landmarks l hand_landmarks) tt W
    = (Return tt, mkWorld (self W) (<[l := fold_left draw_landmarks hs im]> (heap W))).
Proof.
  induction hs as [| hl hs IH]; intros im W Hl; cbn [for_in fold_left].
  - rewrite insert_id by done. by rewrite world_eta.
  - erewrite bind_run; cycle 1.
    { unfold draw_landmarks_call. by erewrite bind_run by by apply load_run. }
    erewrite IH; cycle 1.
    { unfold store. cbn [heap]. apply lookup_insert_eq. }
    unfold store. cbn [heap self]. by rewrite insert_insert_eq.
Qed.

Lemma overlay_off draw (res : SolutionOutputs) draw_fn im :
  has_hands (Some res) && draw = false → overlay draw_fn draw res im = im.
Proof. intros H. unfold overlay. by rewrite H. Qed.

Lemma hands_process_call_run W (l : loc) im :
  heap W !! l = Some im →
  hands_process_call Hands_process l W
  = (Return (Hands_process (hands (self W)) im).2,
     mkWorld (set_hands (Hands_process (hands (self W)) im).1 (self W)) (heap W)).
Proof.
  intros Hl. unfold hands_process_call.
  erewrite bind_run by by apply load_run.
  erewrite bind_run by reflexivity.
  destruct (Hands_process (hands (self W)) im) as [e res].
  by erewrite bind_run by reflexivity.
Qed.

(** [find_hands] on a live image: it returns a location that was not in
    the store, every buffer of the store is kept, the new buffer holds the
    (mirrored) copy with the overlay, and the adapter holds the engine's
    result for the RGB conversion of that copy. *)
Lemma find_hands_spec W img im draw (flip_type : bool) :
  heap W !! img = Some im →
  let er := Hands_process (hands (self W))
              (cv2_cvtColor_BGR2RGB (oriented flip_type im)) in
  ∃ out W',
    find_hands Hands_process draw_landmarks img draw flip_type W = (Return out, W')
    ∧ heap W !! out = None
    ∧ heap W ⊆ heap W'
    ∧ heap W' !! out = Some (overlay draw_landmarks draw er.2 (oriented flip_type im))
    ∧ self W' = set_results (Some er.2) (set_hands er.1 (self W)).
Proof.
  intros Himg er. unfold find_hands.
  (* img_output = img.copy() *)
  erewrite bind_run; cycle 1.
  { unfold ndarray_copy. erewrite bind_run by by apply load_run. apply alloc_run. }
  set (l1 := fresh (dom (heap W))).
  set (W1 := mkWorld (self W) (<[l1 := im]> (heap W))).
  assert (Hl1 : heap W !! l1 = None) by apply fresh_lookup.
  assert (H1 : heap W1 !! l1 = Some im) by apply lookup_insert_eq.
  (* the optional flip *)
  assert (∃ out W2,
    (if flip_type then cv2_flip_call l1 1 else ret l1) W1 = (Return out, W2)
    ∧ heap W !! out = None ∧ heap W ⊆ heap W2
    ∧ heap W2 !! out = Some (oriented flip_type im)
    ∧ self W2 = self W) as (out & W2 & Hrun & Hout & Hsub & Hcont & Hself).
  { destruct flip_type.
    - exists (fresh (dom (heap W1))), (mkWorld (self W1)
        (<[fresh (dom (heap W1)) := cv2_flip im 1]> (heap W1))).
      split; [| split; [| split; [| split]]].
      + unfold cv2_flip_call. erewrite bind_run by by apply load_run. apply alloc_run.
      + pose proof (fresh_lookup (heap W1)) as Hf. unfold W1 in Hf. cbn [heap] in Hf.
        apply lookup_insert_None in Hf. apply Hf.
      + cbn [heap]. etrans; [| apply insert_subseteq, fresh_lookup].
        by apply insert_subseteq.
      + apply lookup_insert_eq.
      + done.
    - exists l1, W1. split; [done |]. split; [done |].
      split; [by apply insert_subseteq |]. done. }
  erewrite bind_run by exact Hrun.
  (* img_rgb = cv2.cvtColor(img_output, ...) *)
  erewrite bind_run; cycle 1.
  { unfold cv2_cvtColor_call. erewrite bind_run by by apply load_run. apply alloc_run. }
  set (l3 := fresh (dom (heap W2))).
  set (rgb := cv2_cvtColor_BGR2RGB (oriented flip_type im)).
  set (W3 := mkWorld (self W2) (<[l3 := rgb]> (heap W2))).
  assert (Hl3 : heap W2 !! l3 = None) by apply fresh_lookup.
  assert (Hne : l3 ≠ out) by (intros ->; congruence).
  (* self.results = self.hands.process(img_rgb) *)
  erewrite bind_run; cycle 1.
  { apply hands_process_call_run with (im := rgb). apply lookup_insert_eq. }
  change (self W3) with (self W2). change (heap W3) with (<[l3 := rgb]> (heap W2)).
  rewrite Hself. change (Hands_process (hands (self W)) rgb) with er.
  erewrite bind_run by reflexivity. erewrite bind_run by reflexivity.
  cbn [self heap results set_results].
  destruct (has_hands (Some er.2) && draw) eqn:Hd.
  - erewrite bind_run; cycle 1.
    { apply draw_loop with (im := oriented flip_type im). cbn [heap].
      by rewrite lookup_insert_ne. }
    eexists _, _. split; [done |]. cbn [heap self].
    split; [done |]. split; [| split].
    + apply insert_subseteq_r; [done |]. etrans; [exact Hsub |].
      by apply insert_subseteq.
    + rewrite lookup_insert_eq. unfold overlay. by rewrite Hd.
    + done.
  - erewrite bind_run by reflexivity.
    eexists _, _. split; [done |]. cbn [heap self].
    split; [done |]. split; [| split].
    + etrans; [exact Hsub |]. by apply insert_subseteq.
    + rewrite lookup_insert_ne by done. unfold overlay. by rewrite Hd.
    + done.
Qed.

(** *** The frame-rate tracker *)

Lemma float_one_eq : float_of_int 1 = S754_finite false 4503599627370496 (-52).
Proof. reflexivity. Qed.

Lemma float_int_finite (f : float) :
  float_is_finite f = true → float_int f = Return (py_int (float_value f)).
Proof. by destruct f. Qed.

(** Dividing 1 by a zero, an infinity or a NaN never gives a finite
    non-zero rate; by a zero it gives an infinity. *)
Lemma rate_finite_elapsed_nonzero (prev now : float) :
  float_is_finite (rate_of prev now) = true →
  float_is_zero (float_sub now prev) = false.
Proof.
  unfold rate_of. rewrite float_one_eq.
  by destruct (float_sub now prev).
Qed.

Lemma update_fps_first W (now : float) :
  py_gt0 (prev_time (self W)) = false →
  update_fps now W
  = (Return 0,
     mkWorld (set_fps 0 (set_prev_time now (set_current_time now (self W)))) (heap W)).
Proof.
  intros Hp. unfold update_fps.
  erewrite bind_run by reflexivity. erewrite bind_run by reflexivity.
  cbn [self set_current_time prev_time]. rewrite Hp.
  erewrite bind_run by reflexivity. erewrite bind_run by reflexivity.
  erewrite bind_run by reflexivity. erewrite bind_run by reflexivity.
  erewrite bind_run by reflexivity. erewrite bind_run by reflexivity. reflexivity.
Qed.

Lemma update_fps_run W (now : float) (n : Z) :
  py_gt0 (prev_time (self W)) = true →
  float_is_zero (float_sub now (prev_time (self W))) = false →
  float_int (rate_of (prev_time (self W)) now) = Return n →
  update_fps now W
  = (Return n,
     mkWorld (set_fps n (set_prev_time now (set_current_time now (self W)))) (heap W)).
Proof.
  intros Hp Hd Hn. unfold update_fps.
  erewrite bind_run by reflexivity. erewrite bind_run by reflexivity.
  cbn [self set_current_time prev_time current_time]. rewrite Hp.
  erewrite bind_run; cycle 1.
  { erewrite bind_run by (unfold py_div; rewrite Hd; reflexivity). reflexivity. }
  erewrite bind_run by reflexivity. erewrite bind_run by reflexivity.
  erewrite bind_run; cycle 1.
  { unfold py_int_number. fold (rate_of (prev_time (self W)) now).
    rewrite Hn. reflexivity. }
  erewrite bind_run by reflexivity. erewrite bind_run by reflexivity. reflexivity.
Qed.

Lemma update_fps_zero_elapsed W (now : float) :
  py_gt0 (prev_time (self W)) = true →
  float_is_zero (float_sub now (prev_time (self W))) = true →
  update_fps now W
  = (Raise ZeroDivisionError, mkWorld (set_current_time now (self W)) (heap W)).
Proof.
  intros Hp Hd. unfold update_fps.
  erewrite bind_run by reflexivity. erewrite bind_run by reflexivity.
  cbn [self set_current_time prev_time current_time]. rewrite Hp.
  apply bind_raise. apply bind_raise. unfold py_div. by rewrite Hd.
Qed.

(** When [int()] raises on the rate, the reading has already replaced the
    recorded timestamp. *)
Lemma update_fps_int_raises W (now : float) (e : exn) :
  py_gt0 (prev_time (self W)) = true →
  float_is_zero (float_sub now (prev_time (self W))) = false →
  float_int (rate_of (prev_time (self W)) now) = Raise e →
  update_fps now W
  = (Raise e, mkWorld (set_prev_time now (set_current_time now (self W))) (heap W)).
Proof.
  intros Hp Hd Hn. unfold update_fps.
  erewrite bind_run by reflexivity. erewrite bind_run by reflexivity.
  cbn [self set_current_time prev_time current_time]. rewrite Hp.
  erewrite bind_run; cycle 1.
  { erewrite bind_run by (unfold py_div; rewrite Hd; reflexivity). reflexivity. }
  erewrite bind_run by reflexivity. erewrite bind_run by reflexivity.
  apply bind_raise. unfold py_int_number.
  fold (rate_of (prev_time (self W)) now). by rewrite Hn.
Qed.

(** *** Results about the extractors *)

Lemma enumerate_elem_snd {A : Type} (l : list A) (p : Z * A) :
  p ∈ enumerate l → p.2 ∈ l.
Proof.
  intros (i & _ & Hi)%elem_of_enumerate. by eapply list_elem_of_lookup_2.
Qed.

Lemma hand_records_length (h w : Z) (res : option SolutionOutputs) :
  length (hand_records h w res) = length (hands_of res).
Proof. unfold hand_records. by rewrite length_map, length_enumerate. Qed.

Lemma hand_records_sizes (h w : Z) (res : option SolutionOutputs) (n : nat) :
  Forall (λ hand, length (landmark hand) = n) (hands_of res) →
  Forall (λ rec, length rec = n) (hand_records h w res).
Proof.
  intros Hn. unfold hand_records. apply Forall_map, Forall_forall.
  intros p Hp%enumerate_elem_snd. simpl.
  rewrite length_map, length_enumerate.
  by eapply (proj1 (Forall_forall _ _) Hn).
Qed.

Lemma hand_records_in_frame (h w : Z) (res : option SolutionOutputs) :
  0 < h → 0 < w →
  Forall normalized (hands_of res) →
  Forall (Forall (in_frame h w)) (hand_records h w res).
Proof.
  intros Hh Hw Hnorm. unfold hand_records. apply Forall_map, Forall_forall.
  intros p Hp%enumerate_elem_snd. simpl.
  apply Forall_map, Forall_forall. intros q Hq%enumerate_elem_snd.
  pose proof (proj1 (Forall_forall _ _) Hnorm _ Hp) as Hhand.
  pose proof (proj1 (Forall_forall _ _) Hhand _ Hq) as (Hx0 & Hx1 & Hy0 & Hy1).
  simpl. split; by apply py_int_mul_range.
Qed.

Lemma hand_records_default_label (h w : Z) (res : option SolutionOutputs) :
  truthy (handedness_of res) = false →
  Forall (Forall (has_label "Right")) (hand_records h w res).
Proof.
  intros Ht. unfold hand_records, hand_type_at. rewrite Ht.
  apply Forall_map, Forall_forall. intros p _. simpl.
  apply Forall_map, Forall_forall. by intros q _.
Qed.

(** C1 (as amended). For a live image of height [h] and width [w] and a
    stored result with [N] hands of 21 landmarks each, whose handedness
    data (when present) covers the hands, [find_positions] returns
    exactly [N] hand records of exactly 21 tuples each; the pixel
    coordinates of every tuple lie in [0,w) x [0,h) when the image is not
    empty and the normalized coordinates of every landmark lie in
    [0,1). *)
Theorem find_positions_records W img im (N : nat) :
  heap W !! img = Some im →
  length (hands_of (results (self W))) = N →
  Forall (λ hand, length (landmark hand) = 21%nat) (hands_of (results (self W))) →
  handedness_covers (results (self W)) N →
  ∃ out,
    find_positions img W = (Return out, W)
    ∧ length out = N
    ∧ Forall (λ rec, length rec = 21%nat) out
    ∧ (0 < Z.of_nat (length im) → 0 < Z.of_nat (length (hd [] im)) →
       Forall normalized (hands_of (results (self W))) →
       Forall (Forall (in_frame (Z.of_nat (length im)) (Z.of_nat (length (hd [] im))))) out).
Proof.
  intros Himg HN H21 Hcov. eexists. split.
  - apply find_positions_spec; [done |]. by rewrite HN.
  - split; [by rewrite hand_records_length |].
    split; [by apply hand_records_sizes |].
    apply hand_records_in_frame.
Qed.

(** C6. When the stored result is absent or holds no hands,
    [find_positions] on a live image returns the empty list (and leaves
    the world as it was). *)
Theorem find_positions_no_hands W img im :
  heap W !! img = Some im →
  has_hands (results (self W)) = false →
  find_positions img W = (Return [], W).
Proof.
  intros Himg Hno. pose proof (has_hands_false _ Hno) as Hnil.
  rewrite (find_positions_spec W img im Himg).
  - unfold hand_records. by rewrite Hnil.
  - intros _ i Hi. rewrite Hnil in Hi. simpl in Hi. lia.
Qed.

(** C2. For every stored result and every hand index at or above the
    number of detected hands, [find_position] returns the empty list: it
    raises nothing and changes nothing, whatever the image and the draw
    flag. *)
Theorem find_position_out_of_range W img hand_no draw draw_radius :
  Z.of_nat (length (hands_of (results (self W)))) <= hand_no →
  find_position cv2_circle img hand_no draw draw_radius W = (Return [], W).
Proof.
  intros Hge. unfold find_position.
  erewrite bind_run by reflexivity.
  destruct (has_hands (results (self W))); [| done].
  by destruct (Z.ltb_spec hand_no (Z.of_nat (length (hands_of (results (self W)))))); [lia |].
Qed.

(** C4 (as amended). When handedness data is unavailable, it is the
    multi-hand extractor [find_positions] that labels every tuple of every
    hand ["Right"]; the tuples [find_position] returns for a selected hand
    are [[id, x, y]] and carry no handedness label at all. *)
Theorem default_label_only_in_find_positions W img im hand_no hand draw draw_radius :
  heap W !! img = Some im →
  truthy (handedness_of (results (self W))) = false →
  hand_no < Z.of_nat (length (hands_of (results (self W)))) →
  py_index (hands_of (results (self W))) hand_no = Some hand →
  (∃ out, find_positions img W = (Return out, W)
          ∧ length out = length (hands_of (results (self W)))
          ∧ Forall (Forall (has_label "Right")) out)
  ∧ (∃ out W', find_position cv2_circle img hand_no draw draw_radius W = (Return out, W')
               ∧ length out = length (landmark hand)
               ∧ Forall is_id_x_y out
               ∧ Forall (λ t, ∀ s, ¬ has_label s t) out).
Proof.
  intros Himg Hnone Hlt Hidx. split.
  - eexists. split; [| split].
    + apply find_positions_spec; [done |]. intros Ht. congruence.
    + apply hand_records_length.
    + by apply hand_records_default_label.
  - eexists _, _. split; [by apply find_position_run |].
    assert (Hall : Forall is_id_x_y
              (position_loop cv2_circle draw draw_radius
                 (enumerate (landmark hand)) im []).1)
      by by apply position_loop_id_x_y.
    split; [| split; [done |]].
    + rewrite position_loop_length. simpl. apply length_enumerate.
    + eapply Forall_impl; [exact Hall |].
      intros t (i & px & py & ->) s. unfold has_label. simpl. done.
Qed.

(** C10. With at least one hand stored, a negative hand index in
    [-N, 0) passes the bounds check of [find_position] and selects the
    hand counted from the end, the last hand for [-1]: the call returns
    that hand's landmark tuples, a list of 21 elements and so not the
    empty list (when circles are drawn, the drawing primitive is assumed
    to keep the shape of the image). *)
Theorem find_position_negative_index W img im hand_no hand draw draw_radius :
  (draw = true → keeps_shape cv2_circle) →
  heap W !! img = Some im →
  hands_of (results (self W)) ≠ [] →
  - Z.of_nat (length (hands_of (results (self W)))) <= hand_no < 0 →
  hands_of (results (self W))
    !! Z.to_nat (Z.of_nat (length (hands_of (results (self W)))) + hand_no)
  = Some hand →
  length (landmark hand) = 21%nat →
  ∃ out W',
    find_position cv2_circle img hand_no draw draw_radius W = (Return out, W')
    ∧ out = position_tuples (Z.of_nat (length im)) (Z.of_nat (length (hd [] im))) hand
    ∧ length out = 21%nat
    ∧ out ≠ []
    ∧ (hand_no = -1 → last (hands_of (results (self W))) = Some hand).
Proof.
  intros Hkeep Himg Hne Hrange Hhand H21.
  assert (Hidx : py_index (hands_of (results (self W))) hand_no = Some hand)
    by by rewrite py_index_negative.
  assert (Hlen : length (position_tuples (Z.of_nat (length im))
                           (Z.of_nat (length (hd [] im))) hand) = 21%nat)
    by (unfold position_tuples; by rewrite length_map, length_enumerate).
  eexists _, _. split; [apply find_position_run; [done | lia | done] |].
  rewrite position_loop_keeps_shape by done. simpl.
  split; [done |]. split; [done |]. split.
  - intros E. fold (position_tuples (Z.of_nat (length im))
                      (Z.of_nat (length (hd [] im))) hand) in E.
    by rewrite E in Hlen.
  - intros ->. by rewrite <- py_index_minus_one.
Qed.

(** C9. [find_hands] works on a copy: for every live image and every
    combination of the flags, the call returns a location that was not in
    the store (so not the caller's), the caller's buffer and every other
    buffer of the store hold what they held, and the flip and the overlay
    are found in the returned buffer only. *)
Theorem find_hands_keeps_input W img im draw (flip_type : bool) :
  heap W !! img = Some im →
  ∃ out W',
    find_hands Hands_process draw_landmarks img draw flip_type W = (Return out, W')
    ∧ out ≠ img
    ∧ heap W !! out = None
    ∧ heap W' !! img = Some im
    ∧ heap W ⊆ heap W'
    ∧ heap W' !! out
      = Some (overlay draw_landmarks draw
                (Hands_process (hands (self W))
                   (cv2_cvtColor_BGR2RGB (oriented flip_type im))).2
                (oriented flip_type im)).
Proof.
  intros Himg.
  destruct (find_hands_spec W img im draw flip_type Himg)
    as (out & W' & Hrun & Hfresh & Hsub & Hout & _).
  exists out, W'. split; [done |].
  split; [intros ->; congruence |]. split; [done |].
  split; [by eapply lookup_weaken |]. done.
Qed.

(** C7. The horizontal flip of [find_hands] is an involution on image
    content, and two successive calls of [find_hands] with the flip
    enabled (the second on the image the first returned) return an image
    in the original orientation: its content is the input flipped twice,
    under the overlays of the two calls, and it is exactly the content of
    the input when neither call draws an overlay. *)
Theorem find_hands_flip_twice W img im (draw1 draw2 : bool) :
  heap W !! img = Some im →
  cv2_flip (cv2_flip im 1) 1 = im
  ∧ ∃ out1 W1 out2 W2 r1 r2,
      find_hands Hands_process draw_landmarks img draw1 true W = (Return out1, W1)
      ∧ find_hands Hands_process draw_landmarks out1 draw2 true W1 = (Return out2, W2)
      ∧ results (self W1) = Some r1
      ∧ results (self W2) = Some r2
      ∧ heap W2 !! out2
        = Some (overlay draw_landmarks draw2 r2
                  (cv2_flip (overlay draw_landmarks draw1 r1 (cv2_flip im 1)) 1))
      ∧ (has_hands (Some r1) && draw1 = false →
         heap W2 !! out2 = Some (overlay draw_landmarks draw2 r2 im))
      ∧ (has_hands (Some r1) && draw1 = false →
         has_hands (Some r2) && draw2 = false →
         heap W2 !! out2 = Some im).
Proof.
  intros Himg. split; [apply cv2_flip_horizontal_involutive |].
  destruct (find_hands_spec W img im draw1 true Himg)
    as (out1 & W1 & Hrun1 & _ & _ & Hout1 & Hself1).
  destruct (find_hands_spec W1 out1 _ draw2 true Hout1)
    as (out2 & W2 & Hrun2 & _ & _ & Hout2 & Hself2).
  cbv zeta in Hout1, Hself1, Hout2, Hself2. unfold oriented in *.
  eexists out1, W1, out2, W2, _, _.
  split; [done |]. split; [done |].
  split; [by rewrite Hself1 |]. split; [by rewrite Hself2 |].
  split; [exact Hout2 |]. split.
  - intros Hd1. rewrite Hout2.
    rewrite (overlay_off _ _ _ (cv2_flip im 1) Hd1).
    by rewrite cv2_flip_horizontal_involutive.
  - intros Hd1 Hd2. rewrite Hout2.
    rewrite (overlay_off _ _ _ (cv2_flip im 1) Hd1) in Hd2 |- *.
    rewrite cv2_flip_horizontal_involutive in Hd2 |- *.
    by rewrite (overlay_off _ _ _ im Hd2).
Qed.

(** C3 (as amended). [update_fps] does not round the rate to the nearest
    integer, it truncates it: once a positive timestamp is recorded, a call
    whose rate [1 / (now - prev_time)], computed in binary64, is finite
    stores and returns that rate truncated toward zero by [int()], which is
    within 1 of every integer nearest to the rate, and the reading becomes
    the recorded timestamp. *)
Theorem update_fps_truncates W (now : float) :
  py_gt0 (prev_time (self W)) = true →
  float_is_finite (rate_of (prev_time (self W)) now) = true →
  ∃ W',
    update_fps now W
    = (Return (py_int (float_value (rate_of (prev_time (self W)) now))), W')
    ∧ fps (self W') = py_int (float_value (rate_of (prev_time (self W)) now))
    ∧ prev_time (self W') = now
    ∧ ∀ n : Z,
        nearest (float_value (rate_of (prev_time (self W)) now)) n →
        Z.abs (py_int (float_value (rate_of (prev_time (self W)) now)) - n) <= 1.
Proof.
  intros Hprev Hfin. eexists. split; [| split; [| split]].
  - apply update_fps_run; [done | by apply rate_finite_elapsed_nonzero |].
    by apply float_int_finite.
  - done.
  - done.
  - intros n. apply py_int_near.
Qed.


End Correctness.

(** ** The results on concrete frames *)

Lemma demo_circle_keeps_shape : keeps_shape Demo.cv2_circle.
Proof.
  intros im center radius color thickness.
  unfold shape, Demo.cv2_circle, Demo.paint. rewrite length_map.
  destruct im as [| row im]; simpl; [done |]. by rewrite length_map.
Qed.

Lemma demo_hand_sizes (x y : Q) : length (landmark (Demo.hand_at x y)) = 21%nat.
Proof. reflexivity. Qed.

Lemma demo_hand_normalized (x y : Q) :
  (0 <= x)%Q → (x < 1)%Q → (0 <= y)%Q → (y < 1)%Q → normalized (Demo.hand_at x y).
Proof.
  intros Hx0 Hx1 Hy0 Hy1. unfold normalized, Demo.hand_at. cbn [landmark].
  by apply Forall_replicate.
Qed.

Lemma demo_left_label_covers (x y : Q) :
  handedness_covers (Some (Demo.one_hand x y Demo.left_label)) 1.
Proof.
  intros _ [| i] Hi; [| lia]. by eexists _, _, _.
Qed.

(** One centred hand in the 2x2 frame: one record of 21 tuples, at pixel
    (1, 1). *)
Lemma find_positions_records_witness :
  ∃ out,
    find_positions 1%positive
      (Demo.world (Some (Demo.one_hand (1 # 2) (1 # 2) Demo.left_label)) 0)
    = (Return out, Demo.world (Some (Demo.one_hand (1 # 2) (1 # 2) Demo.left_label)) 0)
    ∧ length out = 1%nat
    ∧ Forall (λ rec, length rec = 21%nat) out
    ∧ Forall (Forall (in_frame 2 2)) out.
Proof.
  destruct (find_positions_records
              (Demo.world (Some (Demo.one_hand (1 # 2) (1 # 2) Demo.left_label)) 0)
              1%positive Demo.frame 1)
    as (out & Hrun & Hlen & H21 & Hframe).
  - reflexivity.
  - reflexivity.
  - repeat constructor.
  - apply (demo_left_label_covers (1 # 2) (1 # 2)).
  - exists out. split; [exact Hrun |]. split; [exact Hlen |]. split; [exact H21 |].
    apply Hframe; [reflexivity | reflexivity |].
    constructor; [| constructor].
    apply demo_hand_normalized; unfold Qle, Qlt; simpl; lia.
Defined.

(** C1, as stated, fails: a landmark on the right edge (normalized x = 1,
    the end of the range MediaPipe documents) in the 2x2 frame gets the
    pixel column 2, outside [0, 2). *)
Lemma find_positions_outside_frame :
  let W := Demo.world (Some (Demo.one_hand 1 (1 # 2) Demo.left_label)) 0 in
  heap W !! 1%positive = Some Demo.frame
  ∧ shape Demo.frame = (2, 2, 3)
  ∧ length (hands_of (results (self W))) = 1%nat
  ∧ Forall (λ hand, length (landmark hand) = 21%nat) (hands_of (results (self W)))
  ∧ ∃ out,
      find_positions 1%positive W = (Return out, W)
      ∧ out !! 0%nat ≫= (.!! 0%nat)
        = Some [AInt 0; AInt 2; AInt 1; AFloat 0; AStr "Left"]
      ∧ ¬ Forall (Forall (in_frame 2 2)) out.
Proof.
  intros W. split; [reflexivity |]. split; [reflexivity |]. split; [reflexivity |].
  split; [repeat constructor |].
  eexists. split; [vm_compute; reflexivity |]. split; [reflexivity |].
  intros H. apply Forall_cons in H as [H _]. apply Forall_cons in H as [H _].
  simpl in H. lia.
Qed.

Lemma find_positions_no_hands_witness :
  find_positions 1%positive (Demo.world None 0) = (Return [], Demo.world None 0).
Proof.
  apply (find_positions_no_hands (Demo.world None 0) 1%positive Demo.frame);
    reflexivity.
Defined.

Lemma find_position_out_of_range_witness :
  find_position Demo.cv2_circle 1%positive 1 true 5
    (Demo.world (Some (Demo.one_hand (1 # 2) (1 # 2) Demo.left_label)) 0)
  = (Return [], Demo.world (Some (Demo.one_hand (1 # 2) (1 # 2) Demo.left_label)) 0).
Proof.
  apply find_position_out_of_range. simpl. lia.
Defined.

(** One hand without handedness data: [find_positions] labels it "Right",
    [find_position] returns bare [[id, x, y]] tuples. *)
Lemma default_label_only_in_find_positions_witness :
  let W := Demo.world (Some (Demo.one_hand (1 # 2) (1 # 2) None)) 0 in
  (∃ out, find_positions 1%positive W = (Return out, W)
          ∧ length out = length (hands_of (results (self W)))
          ∧ Forall (Forall (has_label "Right")) out)
  ∧ (∃ out W', find_position Demo.cv2_circle 1%positive 0 true 5 W = (Return out, W')
               ∧ length out = length (landmark (Demo.hand_at (1 # 2) (1 # 2)))
               ∧ Forall is_id_x_y out
               ∧ Forall (λ t, ∀ s, ¬ has_label s t) out).
Proof.
  intros W.
  apply (default_label_only_in_find_positions Demo.cv2_circle W 1%positive Demo.frame 0
           (Demo.hand_at (1 # 2) (1 # 2)) true 5).
  - reflexivity.
  - reflexivity.
  - simpl. lia.
  - reflexivity.
Defined.

(** C4, as stated, fails: with handedness data unavailable, the tuples of
    [find_position] have three integer components and no label, "Right" or
    other. *)
Lemma find_position_has_no_label :
  let W := Demo.world (Some (Demo.one_hand (1 # 2) (1 # 2) None)) 0 in
  handedness_of (results (self W)) = None
  ∧ ∃ out,
      (find_position Demo.cv2_circle 1%positive 0 false 5 W).1 = Return out
      ∧ out !! 0%nat = Some [AInt 0; AInt 1; AInt 1]
      ∧ length out = 21%nat
      ∧ Forall (λ t, is_id_x_y t ∧ ¬ has_label "Right" t) out.
Proof.
  intros W. split; [reflexivity |].
  eexists. split; [vm_compute; reflexivity |]. split; [reflexivity |].
  split; [reflexivity |].
  repeat (apply Forall_cons; split; [split; [by eexists _, _, _ | by intros ?] |]).
  constructor.
Qed.

(** Two hands, index -1: the tuples of the second (last) hand, at pixel
    (1, 1) of the 2x2 frame. *)
Lemma find_position_negative_index_witness :
  let W := Demo.world (Some Demo.two_hands) 0 in
  ∃ out W',
    find_position Demo.cv2_circle 1%positive (-1) true 5 W = (Return out, W')
    ∧ out = position_tuples 2 2 (Demo.hand_at (3 # 4) (3 # 4))
    ∧ length out = 21%nat
    ∧ out ≠ []
    ∧ (-1 = -1 → last (hands_of (results (self W))) = Some (Demo.hand_at (3 # 4) (3 # 4))).
Proof.
  intros W.
  apply (find_position_negative_index Demo.cv2_circle W 1%positive Demo.frame (-1)
           (Demo.hand_at (3 # 4) (3 # 4)) true 5).
  - intros _. exact demo_circle_keeps_shape.
  - reflexivity.
  - discriminate.
  - simpl. lia.
  - reflexivity.
  - reflexivity.
Defined.

(** An index below [-N] passes the bounds check too, and the lookup then
    raises [IndexError]. *)
Lemma find_position_below_range :
  (find_position Demo.cv2_circle 1%positive (-3) true 5
     (Demo.world (Some Demo.two_hands) 0)).1 = Raise IndexError.
Proof. reflexivity. Qed.

(** With [draw] on, [find_position] writes into the caller's buffer. *)
Lemma find_position_draws_in_place :
  heap (find_position Demo.cv2_circle 1%positive 0 true 5
          (Demo.world (Some Demo.two_hands) 0)).2 !! 1%positive
  = Some (Demo.paint (255, 0, 255) Demo.frame).
Proof. reflexivity. Qed.

Lemma find_hands_keeps_input_witness :
  let W := Demo.world None 0 in
  ∃ out W',
    find_hands Demo.process Demo.draw_landmarks 1%positive true true W = (Return out, W')
    ∧ out ≠ 1%positive
    ∧ heap W !! out = None
    ∧ heap W' !! 1%positive = Some Demo.frame
    ∧ heap W ⊆ heap W'
    ∧ heap W' !! out
      = Some (overlay Demo.draw_landmarks true
                (Demo.process (hands (self W))
                   (cv2_cvtColor_BGR2RGB (oriented true Demo.frame))).2
                (oriented true Demo.frame)).
Proof.
  intros W.
  apply (find_hands_keeps_input Demo.process Demo.draw_landmarks W 1%positive
           Demo.frame true true).
  reflexivity.
Defined.

Lemma find_hands_flip_twice_witness :
  let W := Demo.world None 0 in
  cv2_flip (cv2_flip Demo.frame 1) 1 = Demo.frame
  ∧ ∃ out1 W1 out2 W2 r1 r2,
      find_hands Demo.process Demo.draw_landmarks 1%positive false true W = (Return out1, W1)
      ∧ find_hands Demo.process Demo.draw_landmarks out1 false true W1 = (Return out2, W2)
      ∧ results (self W1) = Some r1
      ∧ results (self W2) = Some r2
      ∧ heap W2 !! out2
        = Some (overlay Demo.draw_landmarks false r2
                  (cv2_flip (overlay Demo.draw_landmarks false r1
                               (cv2_flip Demo.frame 1)) 1))
      ∧ (has_hands (Some r1) && false = false →
         heap W2 !! out2 = Some (overlay Demo.draw_landmarks false r2 Demo.frame))
      ∧ (has_hands (Some r1) && false = false →
         has_hands (Some r2) && false = false →
         heap W2 !! out2 = Some Demo.frame).
Proof.
  intros W.
  apply (find_hands_flip_twice Demo.process Demo.draw_landmarks W 1%positive
           Demo.frame false false).
  reflexivity.
Defined.

(** A call at reading 1.625 after a recorded timestamp of 1.0: the rate,
    the float nearest to 1.6, is returned as 1. *)
Lemma update_fps_truncates_witness :
  let W := Demo.world None 1 in
  let now := Demo.reading (13 # 8) in
  ∃ W',
    update_fps now W
    = (Return (py_int (float_value (rate_of (prev_time (self W)) now))), W')
    ∧ fps (self W') = py_int (float_value (rate_of (prev_time (self W)) now))
    ∧ prev_time (self W') = now
    ∧ ∀ n : Z,
        nearest (float_value (rate_of (prev_time (self W)) now)) n →
        Z.abs (py_int (float_value (rate_of (prev_time (self W)) now)) - n) <= 1.
Proof.
  intros W now. apply (update_fps_truncates W now); reflexivity.
Defined.

(** C3, as stated, fails: with the recorded timestamp 1.0 and the reading
    1.625 (both exact in binary64) the elapsed time is 0.625 and the rate is
    the float nearest to 1.6, whose nearest integer is 2, and [update_fps]
    stores and returns 1. *)
Lemma update_fps_not_rounded :
  let W := Demo.world None 1 in
  let now := Demo.reading (13 # 8) in
  (float_value (prev_time (self W)) == 1)%Q
  ∧ (float_value now == 13 # 8)%Q
  ∧ (float_value (float_sub now (prev_time (self W))) == 5 # 8)%Q
  ∧ (float_value (rate_of (prev_time (self W)) now)
     == 7205759403792794 # 4503599627370496)%Q
  ∧ (update_fps now W).1 = Return 1
  ∧ fps (self (update_fps now W).2) = 1
  ∧ nearest (float_value (rate_of (prev_time (self W)) now)) 2
  ∧ ¬ nearest (float_value (rate_of (prev_time (self W)) now)) 1.
Proof.
  intros W now.
  split; [reflexivity |]. split; [reflexivity |]. split; [reflexivity |].
  split; [reflexivity |]. split; [reflexivity |]. split; [reflexivity |].
  assert (Hrate : float_value (rate_of (prev_time (self W)) now)
                  = 7205759403792794 # 4503599627370496) by reflexivity.
  rewrite Hrate. unfold nearest, Qle. simpl. lia.
Qed.

(** Two calls on a fresh detector: 0, then the truncated rate of the two
    readings. *)
Lemma update_fps_second_call {Hands : Type} (Hands_new : bool → Z → Q → Q → Hands)
    (h : gmap loc image) (t1 t2 : float) :
  py_gt0 t1 = true →
  float_is_finite (rate_of t1 t2) = true →
  let W0 := mkWorld (__init__ Hands_new false 2 (1 # 2) (1 # 2)) h in
  (update_fps t1 W0).1 = Return 0
  ∧ (update_fps t2 (update_fps t1 W0).2).1 = Return (py_int (float_value (rate_of t1 t2))).
Proof.
  intros Ht1 Hfin W0. unfold W0. rewrite update_fps_first by reflexivity.
  split; [done |]. cbn [snd].
  erewrite update_fps_run; cbn [self prev_time set_fps set_prev_time].
  - reflexivity.
  - done.
  - by apply rate_finite_elapsed_nonzero.
  - by apply float_int_finite.
Qed.

(** * Further properties of the module *)

(** ** Pixel conversion: [int(landmark.x * w)] *)

Lemma quot_range (n d w : Z) :
  0 < d → 0 < w → (0 <= n ÷ d < w ↔ - d < n < d * w).
Proof.
  intros Hd Hw.
  pose proof (Z.quot_rem' n d) as Hqr.
  pose proof (Z.rem_bound_abs n d ltac:(lia)) as Hr.
  pose proof (Z.rem_sign_mul n d ltac:(lia)) as Hs.
  set (q := n ÷ d) in *. set (r := Z.rem n d) in *.
  split; intros H.
  - assert (d * q <= d * (w - 1)) by nia. assert (0 <= d * q) by nia. lia.
  - split.
    + destruct (Z.le_gt_cases 0 q) as [| Hneg]; [done |]. exfalso.
      assert (d * q <= - d) by nia. assert (0 < r) by lia.
      assert (0 <= n) by nia. lia.
    + destruct (Z.lt_ge_cases q w) as [| Hbig]; [done |]. exfalso.
      assert (d * w <= d * q) by nia. assert (r < 0) by lia.
      assert (n <= 0) by nia. nia.
Qed.

Lemma py_int_mono (p q : Q) : (p <= q)%Q → py_int p <= py_int q.
Proof.
  destruct p as [a b], q as [c d]. unfold Qle, py_int. simpl. intros H.
  rewrite <- (Z.quot_mul_cancel_r a (Z.pos b) (Z.pos d)) by lia.
  rewrite <- (Z.quot_mul_cancel_r c (Z.pos d) (Z.pos b)) by lia.
  replace (Z.pos d * Z.pos b) with (Z.pos b * Z.pos d) by lia.
  apply Z.quot_le_mono; lia.
Qed.

Lemma py_int_mul_range_iff (x : Q) (w : Z) :
  0 < w →
  (0 <= py_int (py_mul_int x w) < w ↔ (-1 < x * inject_Z w)%Q ∧ (x < 1)%Q).
Proof.
  intros Hw. destruct x as [a b]. unfold py_int, py_mul_int, Qlt. simpl.
  rewrite Pos.mul_1_r. rewrite quot_range by lia. split; intros H; nia.
Qed.

(** X1. The tuple built for a landmark lies in the frame exactly when its
    scaled coordinates are above -1 and its normalized coordinates below 1:
    [int()] truncates toward zero, so a landmark less than one pixel off the
    left or top edge is reported on the edge (pixel 0), and a landmark on
    the right or bottom edge (normalized 1) is reported outside. *)
Theorem landmark_tuple_in_frame_iff (h w : Z) (hand_type : string)
    (p : Z * NormalizedLandmark) :
  0 < h → 0 < w →
  (in_frame h w (landmark_tuple h w hand_type p)
   ↔ ((-1 < lm_x p.2 * inject_Z w)%Q ∧ (lm_x p.2 < 1)%Q)
     ∧ ((-1 < lm_y p.2 * inject_Z h)%Q ∧ (lm_y p.2 < 1)%Q)).
Proof.
  intros Hh Hw. unfold in_frame, landmark_tuple.
  by rewrite !py_int_mul_range_iff.
Qed.

(** X2. The pixel conversion keeps the order of normalized coordinates:
    for a frame dimension [n >= 0], [x1 <= x2] gives
    [int(x1 * n) <= int(x2 * n)]. *)
Theorem pixel_order_preserved (x1 x2 : Q) (n : Z) :
  0 <= n → (x1 <= x2)%Q →
  py_int (py_mul_int x1 n) <= py_int (py_mul_int x2 n).
Proof.
  intros Hn Hx. apply py_int_mono. unfold py_mul_int.
  apply Qmult_le_compat_r; [done |].
  unfold Qle. simpl. lia.
Qed.

Section MoreProperties.

Context {Hands : Type}.
Variable Hands_new : bool → Z → Q → Q → Hands.
Variable Hands_process : Hands → image → Hands * SolutionOutputs.
Variable draw_landmarks : image → NormalizedLandmarkList → image.
Variable cv2_circle : image → Z * Z → Z → pixel → Z → image.
Variable cv2_putText : image → string → Z * Z → Z → Q → pixel → Z → image.

Implicit Types (W : World Hands) (img : loc) (im : image) (draw : bool)
  (draw_radius hand_no : Z).

(** ** The single-hand extractor *)

Lemma find_position_no_draw_readonly img hand_no draw_radius :
  readonly (find_position (Hands := Hands) cv2_circle img hand_no false draw_radius).
Proof.
  unfold find_position.
  apply readonly_bind; [apply readonly_get_self |]. intros s.
  destruct (has_hands (results s)); [| apply readonly_ret].
  destruct (hand_no <? Z.of_nat (length (hands_of (results s)))); [| apply readonly_ret].
  apply readonly_bind; [apply readonly_getitem |]. intros hand.
  apply readonly_for_in. intros acc [idx lmk].
  apply readonly_bind; [apply readonly_ndarray_shape |]. intros [[h w] c].
  apply readonly_bind; intros; apply readonly_ret.
Qed.

(** X3. With [draw] off, [find_position] only reads: after the call the
    adapter and every image buffer are as before, whatever the index and
    also when the call raises. *)
Theorem find_position_no_draw_pure_read W img hand_no draw_radius :
  (find_position cv2_circle img hand_no false draw_radius W).2 = W.
Proof. apply find_position_no_draw_readonly. Qed.

Lemma keeps_shape_dims im center radius color thickness :
  keeps_shape cv2_circle →
  Z.of_nat (length (cv2_circle im center radius color thickness)) = Z.of_nat (length im)
  ∧ Z.of_nat (length (hd [] (cv2_circle im center radius color thickness)))
    = Z.of_nat (length (hd [] im)).
Proof.
  intros Hkeep. pose proof (Hkeep im center radius color thickness) as Hs.
  unfold shape in Hs. by injection Hs as -> ->.
Qed.

Lemma position_loop_image draw_radius lms :
  keeps_shape cv2_circle →
  ∀ im acc,
    (position_loop cv2_circle true draw_radius lms im acc).2
    = draw_circles cv2_circle (Z.of_nat (length im)) (Z.of_nat (length (hd [] im)))
        draw_radius lms im.
Proof.
  intros Hkeep. unfold draw_circles.
  induction lms as [| p lms IH]; intros im acc; simpl; [done |].
  rewrite IH.
  by destruct (keeps_shape_dims im
        (py_int (py_mul_int (lm_x p.2) (Z.of_nat (length (hd [] im)))),
         py_int (py_mul_int (lm_y p.2) (Z.of_nat (length im))))
        draw_radius (255, 0, 255) FILLED Hkeep) as [-> ->].
Qed.

(** X4. With [draw] on and an index that selects a hand, [find_position]
    returns that hand's [[id, x, y]] tuples and draws into the caller's
    buffer itself: afterwards the buffer holds the image with one filled
    circle per landmark, drawn in landmark order at the returned pixel
    coordinates; the adapter and every other buffer are unchanged (the
    drawing primitive is assumed to keep the shape of the image). *)
Theorem find_position_draws_circles W img im hand_no hand draw_radius :
  keeps_shape cv2_circle →
  heap W !! img = Some im →
  hand_no < Z.of_nat (length (hands_of (results (self W)))) →
  py_index (hands_of (results (self W))) hand_no = Some hand →
  ∃ W',
    find_position cv2_circle img hand_no true draw_radius W
    = (Return (position_tuples (Z.of_nat (length im)) (Z.of_nat (length (hd [] im))) hand),
       W')
    ∧ self W' = self W
    ∧ heap W' !! img
      = Some (draw_circles cv2_circle (Z.of_nat (length im))
                (Z.of_nat (length (hd [] im))) draw_radius
                (enumerate (landmark hand)) im)
    ∧ ∀ p, p ≠ img → heap W' !! p = heap W !! p.
Proof.
  intros Hkeep Himg Hlt Hidx. eexists. split; [| split; [| split]].
  - rewrite (find_position_run cv2_circle W img im hand_no hand true draw_radius)
      by done.
    by rewrite position_loop_keeps_shape by done.
  - done.
  - cbn [heap]. rewrite lookup_insert_eq. by rewrite position_loop_image.
  - intros p Hp. cbn [heap]. by rewrite lookup_insert_ne.
Qed.

(** X5. With hands stored, an index below [-N] passes the bounds check
    [hand_no < len(...)] and the list lookup raises [IndexError]; nothing
    is drawn or changed. *)
Theorem find_position_index_error W img hand_no draw draw_radius :
  hands_of (results (self W)) ≠ [] →
  hand_no < - Z.of_nat (length (hands_of (results (self W)))) →
  find_position cv2_circle img hand_no draw draw_radius W = (Raise IndexError, W).
Proof.
  intros Hne Hlow. unfold find_position.
  erewrite bind_run by reflexivity.
  rewrite has_hands_true by done.
  destruct (Z.ltb_spec hand_no (Z.of_nat (length (hands_of (results (self W))))));
    [| lia].
  apply bind_raise. unfold getitem. by rewrite py_index_below.
Qed.

(** ** The multi-hand extractor *)

Lemma enumerate_lookup_Some {A : Type} (l : list A) (i : nat) (a : A) :
  l !! i = Some a → enumerate l !! i = Some (Z.of_nat i, a).
Proof. intros H. unfold enumerate. by rewrite list_lookup_imap, H. Qed.

Lemma hand_records_lookup (h w : Z) (res : option SolutionOutputs) (i : nat)
    (hand : NormalizedLandmarkList) :
  hands_of res !! i = Some hand →
  hand_records h w res !! i
  = Some (map (landmark_tuple h w (hand_type_at res (Z.of_nat i)))
              (enumerate (landmark hand))).
Proof.
  intros Hi. unfold hand_records.
  by rewrite list_lookup_fmap, (enumerate_lookup_Some _ _ _ Hi).
Qed.

Lemma hand_type_at_present (res : option SolutionOutputs) (i : nat)
    (handed : list ClassificationList) (cl : ClassificationList)
    (c0 : Classification) (cs : list Classification) :
  handedness_of res = Some handed →
  handed !! i = Some cl →
  classification cl = c0 :: cs →
  hand_type_at res (Z.of_nat i) = label c0.
Proof.
  intros Hh Hi Hc. unfold hand_type_at. rewrite Hh. simpl.
  destruct handed as [| cl0 handed']; [done |]. simpl.
  by rewrite py_index_nonneg, Hi, Hc.
Qed.

(** X6. The tuple at position [j] of the record at position [i] describes
    landmark [j] of hand [i]: its id is [j], its pixel coordinates are the
    normalized ones scaled by the width and the height of the image and
    truncated, its depth is the landmark's [z] unchanged, and its label is
    the one resolved for hand [i]. *)
Theorem find_positions_lookup W img im (i j : nat)
    (hand : NormalizedLandmarkList) (lmk : NormalizedLandmark) :
  heap W !! img = Some im →
  handedness_covers (results (self W)) (length (hands_of (results (self W)))) →
  hands_of (results (self W)) !! i = Some hand →
  landmark hand !! j = Some lmk →
  ∃ out rec,
    find_positions img W = (Return out, W)
    ∧ out !! i = Some rec
    ∧ rec !! j
      = Some [AInt (Z.of_nat j);
              AInt (py_int (py_mul_int (lm_x lmk) (Z.of_nat (length (hd [] im)))));
              AInt (py_int (py_mul_int (lm_y lmk) (Z.of_nat (length im))));
              AFloat (lm_z lmk);
              AStr (hand_type_at (results (self W)) (Z.of_nat i))].
Proof.
  intros Himg Hcov Hi Hj. eexists _, _.
  split; [by apply find_positions_spec |].
  split; [by apply hand_records_lookup |].
  by rewrite list_lookup_fmap, (enumerate_lookup_Some _ _ _ Hj).
Qed.

(** X7. When handedness data is present, every tuple of the record of hand
    [i] carries the label of the first classification of the [i]-th
    handedness entry (and the record has one tuple per landmark). *)
Theorem find_positions_label_from_handedness W img im (i : nat)
    (hand : NormalizedLandmarkList) (handed : list ClassificationList)
    (cl : ClassificationList) (c0 : Classification) (cs : list Classification) :
  heap W !! img = Some im →
  handedness_covers (results (self W)) (length (hands_of (results (self W)))) →
  hands_of (results (self W)) !! i = Some hand →
  handedness_of (results (self W)) = Some handed →
  handed !! i = Some cl →
  classification cl = c0 :: cs →
  ∃ out rec,
    find_positions img W = (Return out, W)
    ∧ out !! i = Some rec
    ∧ length rec = length (landmark hand)
    ∧ Forall (has_label (label c0)) rec.
Proof.
  intros Himg Hcov Hi Hh Hcl Hc. eexists _, _.
  split; [by apply find_positions_spec |].
  split; [by apply hand_records_lookup |].
  split; [by rewrite length_map, length_enumerate |].
  rewrite (hand_type_at_present _ _ _ _ _ _ Hh Hcl Hc).
  apply Forall_map, Forall_forall. by intros p _.
Qed.

(** A loop raises when each step returns or raises [e] without changing the
    world and some element always raises. *)
Lemma for_in_raises {A S : Type} (l : list A) (body : S → A → M Hands S)
    (e : exn) W :
  (∀ a acc, a ∈ l →
     (∃ acc', body acc a W = (Return acc', W)) ∨ body acc a W = (Raise e, W)) →
  (∃ a, a ∈ l ∧ ∀ acc, body acc a W = (Raise e, W)) →
  ∀ acc, for_in l body acc W = (Raise e, W).
Proof.
  induction l as [| a l IH]; intros Hstep (b & Hb & Hraise) acc.
  - by apply elem_of_nil in Hb.
  - cbn [for_in].
    destruct (Hstep a acc ltac:(left)) as [[acc' Hok] | Hbad];
      [| by apply bind_raise].
    rewrite (bind_run _ _ W acc' W) by done.
    apply IH.
    + intros a' acc'' Ha'. apply Hstep. by right.
    + exists b. split; [| done].
      apply elem_of_cons in Hb as [-> | Hb]; [| done].
      rewrite Hraise in Hok. discriminate.
Qed.

(** X8. When the handedness list is present but shorter than the list of
    hands, [find_positions] raises [IndexError] (at the first hand without
    an entry, if not before) and returns no partial result; the world is
    unchanged. *)
Theorem find_positions_misaligned_handedness W img im :
  heap W !! img = Some im →
  truthy (handedness_of (results (self W))) = true →
  (length (default [] (handedness_of (results (self W))))
   < length (hands_of (results (self W))))%nat →
  find_positions img W = (Raise IndexError, W).
Proof.
  intros Himg Ht Hshort. unfold find_positions.
  rewrite (bind_run _ _ W (shape im) W) by by apply ndarray_shape_run.
  unfold shape. rewrite (bind_run _ _ W (self W) W) by done.
  rewrite has_hands_true by (intros E; rewrite E in Hshort; simpl in Hshort; lia).
  apply for_in_raises.
  - intros [hand_idx hand] acc Hin.
    rewrite (bind_run _ _ W (self W) W) by done. rewrite Ht.
    destruct (py_index (default [] (handedness_of (results (self W)))) hand_idx)
      as [cl |] eqn:E1.
    2:{ right. apply bind_raise. apply bind_raise. unfold getitem. by rewrite E1. }
    destruct (py_index (classification cl) 0) as [c0 |] eqn:E2.
    + left. eexists.
      rewrite (bind_run _ _ W (label c0) W).
      * erewrite bind_run; [reflexivity |].
        apply for_in_collect_nil
          with (g := landmark_tuple (Z.of_nat (length im))
                       (Z.of_nat (length (hd [] im))) (label c0)).
        by intros [lm_idx lmk] acc' _.
      * rewrite (bind_run _ _ W cl W) by (unfold getitem; by rewrite E1).
        by rewrite (bind_run _ _ W c0 W) by (unfold getitem; by rewrite E2).
    + right. apply bind_raise.
      rewrite (bind_run _ _ W cl W) by (unfold getitem; by rewrite E1).
      apply bind_raise. unfold getitem. by rewrite E2.
  - destruct (lookup_lt_is_Some_2 (hands_of (results (self W)))
                (length (default [] (handedness_of (results (self W))))) Hshort)
      as [hand Hhand].
    exists (Z.of_nat (length (default [] (handedness_of (results (self W))))), hand).
    split.
    + apply list_elem_of_lookup. eexists. by apply enumerate_lookup_Some.
    + intros acc. rewrite (bind_run _ _ W (self W) W) by done. rewrite Ht.
      apply bind_raise. apply bind_raise. unfold getitem.
      rewrite py_index_nonneg. by rewrite lookup_ge_None_2.
Qed.

(** X9. On an index that selects hand [i], the single-hand extractor
    returns the first three components, [[id, x, y]], of the tuples the
    multi-hand extractor returns for that hand (when circles are drawn,
    the drawing primitive is assumed to keep the shape of the image). *)
Theorem find_position_agrees_with_find_positions W img im (i : nat)
    (hand : NormalizedLandmarkList) draw draw_radius :
  (draw = true → keeps_shape cv2_circle) →
  heap W !! img = Some im →
  handedness_covers (results (self W)) (length (hands_of (results (self W)))) →
  hands_of (results (self W)) !! i = Some hand →
  ∃ out rec W',
    find_positions img W = (Return out, W)
    ∧ out !! i = Some rec
    ∧ find_position cv2_circle img (Z.of_nat i) draw draw_radius W
      = (Return (map (take 3) rec), W').
Proof.
  intros Hkeep Himg Hcov Hi. eexists _, _, _.
  split; [by apply find_positions_spec |].
  split; [by apply hand_records_lookup |].
  rewrite (find_position_run cv2_circle W img im (Z.of_nat i) hand draw draw_radius).
  - rewrite position_loop_keeps_shape by done. simpl.
    by rewrite map_map.
  - done.
  - apply lookup_lt_Some in Hi. lia.
  - by rewrite py_index_nonneg.
Qed.

(** ** The frame processor *)

(** X10. [find_hands] replaces the stored result, whatever it was, by the
    engine's output for the RGB conversion of the (mirrored) copy of the
    frame, and hands the engine its new state; the configuration and the
    FPS state of the adapter are unchanged. *)
Theorem find_hands_updates_results W img im draw (flip_type : bool) :
  heap W !! img = Some im →
  ∃ out W',
    find_hands Hands_process draw_landmarks img draw flip_type W = (Return out, W')
    ∧ results (self W')
      = Some (Hands_process (hands (self W))
                (cv2_cvtColor_BGR2RGB (oriented flip_type im))).2
    ∧ hands (self W')
      = (Hands_process (hands (self W))
           (cv2_cvtColor_BGR2RGB (oriented flip_type im))).1
    ∧ mode (self W') = mode (self W)
    ∧ max_hands (self W') = max_hands (self W)
    ∧ detection_conf (self W') = detection_conf (self W)
    ∧ tracking_conf (self W') = tracking_conf (self W)
    ∧ prev_time (self W') = prev_time (self W)
    ∧ current_time (self W') = current_time (self W)
    ∧ fps (self W') = fps (self W).
Proof.
  intros Himg.
  destruct (find_hands_spec Hands_process draw_landmarks W img im draw flip_type Himg)
    as (out & W' & Hrun & _ & _ & _ & Hself).
  exists out, W'. split; [done |]. by rewrite Hself.
Qed.

Lemma overlay_shape draw (res : SolutionOutputs) im :
  (draw = true → draw_keeps_shape draw_landmarks) →
  shape (overlay draw_landmarks draw res im) = shape im.
Proof.
  intros Hkeep. unfold overlay.
  destruct (has_hands (Some res) && draw) eqn:Hd; [| done].
  apply andb_true_iff in Hd as [_ ->]. specialize (Hkeep eq_refl).
  generalize (hands_of (Some res)). intros hs. revert im.
  induction hs as [| hl hs IH]; intros im; simpl; [done |].
  by rewrite IH, Hkeep.
Qed.

Lemma oriented_shape (flip_type : bool) im : shape (oriented flip_type im) = shape im.
Proof. destruct flip_type; [apply cv2_flip_shape | done]. Qed.

(** X11. The usual pipeline: [find_positions] applied to the image that
    [find_hands] returned yields one record per hand the engine reported
    for this frame, with the pixel coordinates scaled by the height and the
    width of the input frame (the skeleton-drawing utility is assumed to
    keep the shape of the image, and the engine's handedness list to cover
    its hands). *)
Theorem find_hands_then_find_positions W img im draw (flip_type : bool) :
  heap W !! img = Some im →
  (draw = true → draw_keeps_shape draw_landmarks) →
  let res := (Hands_process (hands (self W))
                (cv2_cvtColor_BGR2RGB (oriented flip_type im))).2 in
  handedness_covers (Some res) (length (hands_of (Some res))) →
  ∃ out W',
    find_hands Hands_process draw_landmarks img draw flip_type W = (Return out, W')
    ∧ find_positions out W'
      = (Return (hand_records (Z.of_nat (length im)) (Z.of_nat (length (hd [] im)))
                   (Some res)), W')
    ∧ length (hand_records (Z.of_nat (length im)) (Z.of_nat (length (hd [] im)))
                (Some res))
      = length (hands_of (Some res)).
Proof.
  intros Himg Hkeep res Hcov.
  destruct (find_hands_spec Hands_process draw_landmarks W img im draw flip_type Himg)
    as (out & W' & Hrun & _ & _ & Hout & Hself).
  cbv zeta in Hout, Hself. fold res in Hout, Hself.
  exists out, W'. split; [done |]. split; [| apply hand_records_length].
  assert (Hres : results (self W') = Some res) by by rewrite Hself.
  rewrite (find_positions_spec W' out _ Hout) by by rewrite Hres.
  rewrite Hres.
  pose proof (overlay_shape draw res (oriented flip_type im) Hkeep) as Hs.
  rewrite oriented_shape in Hs. unfold shape in Hs.
  by injection Hs as -> ->.
Qed.

(** ** The frame-rate tracker *)

(** *** Binary64 facts used below *)

Lemma digits2_pos_bounds (m : positive) :
  2 ^ (Z.pos (digits2_pos m) - 1) <= Z.pos m < 2 ^ Z.pos (digits2_pos m).
Proof.
  induction m as [m IH | m IH |]; cbn [digits2_pos]; [| | by compute].
  all: rewrite Pos2Z.inj_succ, Z.pow_succ_r by lia.
  all: replace (Z.succ (Z.pos (digits2_pos m)) - 1)
         with (Z.succ (Z.pos (digits2_pos m) - 1)) by lia.
  all: rewrite Z.pow_succ_r by lia; lia.
Qed.

Lemma iter_xO_shift (m d : positive) :
  Z.pos (Pos.iter xO m d) = Z.pos m * 2 ^ Z.pos d.
Proof.
  induction d as [| d IH] using Pos.peano_ind.
  - simpl. lia.
  - rewrite Pos.iter_succ, Pos2Z.inj_succ, Z.pow_succ_r by lia.
    rewrite Pos2Z.inj_xO, IH. lia.
Qed.

Lemma bounded_digits (m : positive) (e : Z) :
  bounded 53 1024 m e = true →
  Z.pos (digits2_pos m) <= 53
  ∧ (-1074 < e → Z.pos (digits2_pos m) = 53)
  ∧ -1074 <= e.
Proof.
  unfold bounded, canonical_mantissa, fexp, emin.
  intros [Hc _]%andb_true_iff. apply Z.eqb_eq in Hc. lia.
Qed.

(** Of two canonical magnitudes the one with the smaller exponent, or with
    the same exponent and the smaller mantissa, is the smaller once both are
    aligned on the smaller exponent. *)
Lemma aligned_lt (m1 m2 : positive) (e1 e2 : Z) :
  bounded 53 1024 m1 e1 = true →
  bounded 53 1024 m2 e2 = true →
  e1 < e2 ∨ (e1 = e2 ∧ Z.pos m1 < Z.pos m2) →
  Z.pos (shl_align m1 e1 (Z.min e1 e2)).1 < Z.pos (shl_align m2 e2 (Z.min e1 e2)).1.
Proof.
  intros (Hd1 & _ & Hmin1)%bounded_digits (_ & Hd2 & _)%bounded_digits [Hlt | [-> Hlt]].
  - rewrite Z.min_l by lia. unfold shl_align. rewrite Z.sub_diag.
    destruct (e1 - e2) as [| d | d] eqn:Hd; [lia | lia |]. cbn [fst].
    rewrite iter_xO_shift.
    pose proof (digits2_pos_bounds m1) as [_ H1].
    pose proof (digits2_pos_bounds m2) as [H2 _].
    rewrite Hd2 in H2 by lia.
    assert (H53 : 2 ^ Z.pos (digits2_pos m1) <= 2 ^ 53)
      by (apply Z.pow_le_mono_r; lia).
    assert (Hp : 2 ^ 1 <= 2 ^ Z.pos d) by (apply Z.pow_le_mono_r; lia).
    change (2 ^ 53) with 9007199254740992 in H53.
    change (2 ^ (53 - 1)) with 4503599627370496 in H2.
    change (2 ^ 1) with 2 in Hp. nia.
  - rewrite Z.min_id. unfold shl_align. by rewrite Z.sub_diag.
Qed.

Lemma binary_round_aux_signed (s : bool) (m e : Z) (l : location) :
  float_signed s (binary_round_aux 53 1024 s m e l).
Proof.
  unfold binary_round_aux.
  destruct (shr_fexp 53 1024 m e l) as [mrs e'].
  destruct (shr_fexp 53 1024 _ e' loc_Exact) as [mrs' e''].
  destruct (shr_m mrs') as [| p | p]; [done | | done].
  by destruct (e'' <=? 1024 - 53).
Qed.

Lemma binary_normalize_negative (d e : Z) :
  d < 0 → float_signed true (binary_normalize 53 1024 d e false).
Proof.
  intros Hd. destruct d as [| p | p]; [lia | lia |].
  unfold binary_normalize, binary_round.
  destruct (shl_align p e _) as [mz ez]. apply binary_round_aux_signed.
Qed.

(** For well-formed floats, [x < y] makes the rounded difference [x - y]
    negative (or a NaN, which a closer look at the rounding excludes and
    which the users of this lemma do not need excluded). *)
Lemma float_sub_lt_signed (x y : float) :
  float_valid x = true → float_valid y = true →
  float_lt x y = true →
  float_signed true (float_sub x y).
Proof.
  intros Hx Hy Hlt.
  destruct x as [sx | sx | | sx mx ex], y as [sy | sy | | sy my ey];
    try discriminate Hlt;
    try (by destruct sx, sy); try (by destruct sx); try (by destruct sy).
  unfold float_valid, valid_binary in Hx, Hy.
  unfold float_sub, SFsub. apply binary_normalize_negative.
  unfold float_lt, SFltb, SFcompare in Hlt.
  change (Pos.compare_cont Eq mx my) with (Pos.compare mx my) in Hlt.
  destruct sx, sy; cbn [cond_Zopp]; try discriminate Hlt.
  - (* both negative: the magnitude of [y] is the smaller *)
    assert (H : ey < ex ∨ (ey = ex ∧ Z.pos my < Z.pos mx)).
    { destruct (Z.compare_spec ex ey) as [-> | |]; try discriminate Hlt; [| lia].
      right. split; [done |].
      destruct (Pos.compare_spec mx my); try discriminate Hlt. lia. }
    pose proof (aligned_lt my mx ey ex Hy Hx H) as Hal.
    rewrite (Z.min_comm ey ex) in Hal. lia.
  - lia.
  - assert (H : ex < ey ∨ (ex = ey ∧ Z.pos mx < Z.pos my)).
    { destruct (Z.compare_spec ex ey) as [-> | |]; try discriminate Hlt; [| lia].
      right. split; [done |].
      destruct (Pos.compare_spec mx my); try discriminate Hlt. lia. }
    pose proof (aligned_lt mx my ex ey Hx Hy H) as Hal. lia.
Qed.

Lemma rate_of_signed (prev now : float) :
  float_signed true (float_sub now prev) →
  float_signed true (rate_of prev now).
Proof.
  unfold rate_of. rewrite float_one_eq.
  destruct (float_sub now prev) as [s | s | | s m e]; cbn [float_signed];
    try intros ->; try done.
  unfold float_div, SFdiv.
  destruct (SFdiv_core_binary 53 1024 _ _ _ _) as [[mz ez] lz].
  apply binary_round_aux_signed.
Qed.

Lemma float_eq_sub_zero (x y : float) :
  float_is_finite y = true →
  float_eq x y = true →
  float_is_zero (float_sub x y) = true.
Proof.
  intros Hfin Heq.
  destruct x as [sx | sx | | sx mx ex], y as [sy | sy | | sy my ey];
    try discriminate Hfin; try discriminate Heq;
    try (by destruct sx, sy); try (by destruct sx); try (by destruct sy).
  unfold float_eq, SFeqb, SFcompare in Heq.
  change (Pos.compare_cont Eq mx my) with (Pos.compare mx my) in Heq.
  assert (sx = sy ∧ ex = ey ∧ mx = my) as (-> & -> & ->).
  { destruct sx, sy; try discriminate Heq.
    all: destruct (Z.compare_spec ex ey); try discriminate Heq.
    all: destruct (Pos.compare_spec mx my); try discriminate Heq.
    all: done. }
  unfold float_sub, SFsub. by rewrite Z.sub_diag.
Qed.

Lemma py_int_nonpos (q : Q) : (q <= 0)%Q → py_int q <= 0.
Proof. intros H. by apply (py_int_mono q 0). Qed.

Lemma float_int_negative (f : float) :
  float_signed true f → float_is_finite f = true →
  py_int (float_value f) <= 0.
Proof.
  destruct f as [s | s | | s m e]; try done. simpl. intros -> _.
  apply py_int_nonpos. destruct e as [| p | p]; unfold Qle; simpl.
  - lia.
  - pose proof (Z.pow_pos_nonneg 2 (Z.pos p)). nia.
  - lia.
Qed.

(** X12. A call whose reading equals the recorded (positive, finite)
    timestamp divides by zero: [update_fps] raises [ZeroDivisionError]
    after having stored the reading in [current_time], with [prev_time] and
    [fps] as they were. *)
Theorem update_fps_same_timestamp W (now : float) :
  py_gt0 (prev_time (self W)) = true →
  float_is_finite (prev_time (self W)) = true →
  float_eq now (prev_time (self W)) = true →
  update_fps now W
  = (Raise ZeroDivisionError, mkWorld (set_current_time now (self W)) (heap W)).
Proof.
  intros Hp Hfin Hnow. apply update_fps_zero_elapsed; [done |].
  by apply float_eq_sub_zero.
Qed.

(** X13. There is no protection against a clock that goes back: a reading
    below the recorded (positive) timestamp is accepted, the rate returned
    and stored is zero or negative, and the reading becomes the recorded
    timestamp (readings are well-formed binary64 values and the rate
    [1 / (now - prev_time)] is assumed not to overflow). *)
Theorem update_fps_clock_rollback W (now : float) :
  float_valid now = true →
  float_valid (prev_time (self W)) = true →
  py_gt0 (prev_time (self W)) = true →
  float_lt now (prev_time (self W)) = true →
  float_is_finite (rate_of (prev_time (self W)) now) = true →
  ∃ n W',
    update_fps now W = (Return n, W')
    ∧ n <= 0
    ∧ fps (self W') = n
    ∧ prev_time (self W') = now.
Proof.
  intros Hvn Hvp Hp Hback Hfin.
  eexists _, _. split; [| split; [| split]].
  - apply update_fps_run; [done | by apply rate_finite_elapsed_nonzero |].
    by apply float_int_finite.
  - apply float_int_negative; [| done].
    apply rate_of_signed. by apply float_sub_lt_signed.
  - done.
  - done.
Qed.

(** X15. No history is kept: on a detector just built, three calls at
    positive readings [t1], [t2], [t3] whose successive rates are finite
    return 0, then the rate of [t1] and [t2] truncated, then the rate of
    [t2] and [t3] truncated, which is what [fps] holds at the end: every
    rate comes from the last two readings only. *)
Theorem update_fps_three_calls (mode : bool) (max_hands : Z)
    (detection_confidence tracking_confidence : Q)
    (h : gmap loc image) (t1 t2 t3 : float) :
  py_gt0 t1 = true → py_gt0 t2 = true →
  float_is_finite (rate_of t1 t2) = true →
  float_is_finite (rate_of t2 t3) = true →
  let W0 := mkWorld (__init__ Hands_new mode max_hands detection_confidence
                              tracking_confidence) h in
  let W1 := (update_fps t1 W0).2 in
  let W2 := (update_fps t2 W1).2 in
  (update_fps t1 W0).1 = Return 0
  ∧ (update_fps t2 W1).1 = Return (py_int (float_value (rate_of t1 t2)))
  ∧ (update_fps t3 W2).1 = Return (py_int (float_value (rate_of t2 t3)))
  ∧ fps (self (update_fps t3 W2).2) = py_int (float_value (rate_of t2 t3)).
Proof.
  intros H1 H2 Hf12 Hf23 W0 W1 W2.
  assert (E1 : update_fps t1 W0
               = (Return 0, mkWorld (set_fps 0 (set_prev_time t1
                                       (set_current_time t1 (self W0)))) h))
    by by apply update_fps_first.
  assert (HW1 : W1 = mkWorld (set_fps 0 (set_prev_time t1
                                (set_current_time t1 (self W0)))) h)
    by (unfold W1; by rewrite E1).
  assert (E2 : update_fps t2 W1
               = (Return (py_int (float_value (rate_of t1 t2))),
                  mkWorld (set_fps (py_int (float_value (rate_of t1 t2)))
                             (set_prev_time t2 (set_current_time t2 (self W1)))) h)).
  { rewrite HW1. apply update_fps_run; cbn [self prev_time set_fps set_prev_time].
    - done.
    - by apply rate_finite_elapsed_nonzero.
    - by apply float_int_finite. }
  assert (HW2 : W2 = mkWorld (set_fps (py_int (float_value (rate_of t1 t2)))
                                (set_prev_time t2 (set_current_time t2 (self W1)))) h)
    by (unfold W2; by rewrite E2).
  assert (E3 : update_fps t3 W2
               = (Return (py_int (float_value (rate_of t2 t3))),
                  mkWorld (set_fps (py_int (float_value (rate_of t2 t3)))
                             (set_prev_time t3 (set_current_time t3 (self W2)))) h)).
  { rewrite HW2. apply update_fps_run; cbn [self prev_time set_fps set_prev_time].
    - done.
    - by apply rate_finite_elapsed_nonzero.
    - by apply float_int_finite. }
  rewrite E1, E2, E3. done.
Qed.

(** ** The overlay renderer *)

Lemma display_fps_run W img im (position : Z * Z) (font : Z) (scale : Q)
    (color : pixel) (thickness : Z) :
  heap W !! img = Some im →
  display_fps cv2_putText img position font scale color thickness W
  = (Return img,
     mkWorld (self W)
       (<[img := cv2_putText im (fps_text (fps (self W))) position font scale
                   color thickness]> (heap W))).
Proof.
  intros Himg. unfold display_fps.
  erewrite bind_run by reflexivity.
  erewrite bind_run; cycle 1.
  { unfold cv2_putText_call. by erewrite bind_run by by apply load_run. }
  done.
Qed.

(** X16. [display_fps] draws in place and returns the image it was given:
    the result is the caller's own buffer, which now holds the frame with
    the text ["FPS: "] followed by the decimal form of the stored rate; the
    adapter and every other buffer are unchanged. *)
Theorem display_fps_in_place W img im (position : Z * Z) (font : Z) (scale : Q)
    (color : pixel) (thickness : Z) :
  heap W !! img = Some im →
  ∃ W',
    display_fps cv2_putText img position font scale color thickness W = (Return img, W')
    ∧ self W' = self W
    ∧ heap W' !! img
      = Some (cv2_putText im ("FPS: " +:+ pretty (fps (self W))) position font scale
                color thickness)
    ∧ ∀ p, p ≠ img → heap W' !! p = heap W !! p.
Proof.
  intros Himg. eexists. split; [by apply display_fps_run |].
  cbn [self heap]. split; [done |]. split; [apply lookup_insert_eq |].
  intros p Hp. by rewrite lookup_insert_ne.
Qed.

Lemma update_fps_returns W (now : float) (n : Z) W1 :
  update_fps now W = (Return n, W1) → fps (self W1) = n ∧ heap W1 = heap W.
Proof.
  intros Hrun.
  destruct (py_gt0 (prev_time (self W))) eqn:Hp.
  - destruct (float_is_zero (float_sub now (prev_time (self W)))) eqn:Hd.
    + rewrite update_fps_zero_elapsed in Hrun by done. discriminate.
    + destruct (float_int (rate_of (prev_time (self W)) now)) as [k | e] eqn:Hk.
      * rewrite (update_fps_run W now k) in Hrun by done.
        by injection Hrun as <- <-.
      * rewrite (update_fps_int_raises W now e) in Hrun by done. discriminate.
  - rewrite update_fps_first in Hrun by done. by injection Hrun as <- <-.
Qed.

(** X17. The label shows the rate just measured: after a call of
    [update_fps] that returned [n], [display_fps] writes the text
    ["FPS: n"] into the image it is given. *)
Theorem update_fps_then_display_fps W W1 img im (now : float) (n : Z)
    (position : Z * Z) (font : Z) (scale : Q) (color : pixel) (thickness : Z) :
  heap W !! img = Some im →
  update_fps now W = (Return n, W1) →
  ∃ W2,
    display_fps cv2_putText img position font scale color thickness W1 = (Return img, W2)
    ∧ heap W2 !! img
      = Some (cv2_putText im (fps_text n) position font scale color thickness).
Proof.
  intros Himg Hrun. destruct (update_fps_returns W now n W1 Hrun) as [Hfps Hheap].
  assert (Himg1 : heap W1 !! img = Some im) by by rewrite Hheap.
  eexists. split; [by apply display_fps_run |].
  cbn [heap]. by rewrite lookup_insert_eq, Hfps.
Qed.

End MoreProperties.

(** ** The further properties on concrete frames *)

Lemma demo_paint_shape (color : pixel) (im : image) :
  shape (Demo.paint color im) = shape im.
Proof.
  unfold shape, Demo.paint. rewrite length_map.
  destruct im as [| row im]; simpl; [done |]. by rewrite length_map.
Qed.

Lemma demo_draw_keeps_shape : draw_keeps_shape Demo.draw_landmarks.
Proof. intros im hl. apply demo_paint_shape. Qed.

Lemma demo_two_hands_covers : handedness_covers (Some Demo.two_hands) 2.
Proof.
  intros _ [| [| i]] Hi; [by eexists _, _, _ | by eexists _, _, _ | lia].
Qed.

(** A landmark a quarter of the width off the left edge of the 2x2 frame is
    reported in column 0. *)
Lemma landmark_tuple_in_frame_iff_witness :
  in_frame 2 2 (landmark_tuple 2 2 "Left" (0, mkLandmark (- (1 # 4)) (1 # 2) 0))
  ↔ ((-1 < - (1 # 4) * inject_Z 2)%Q ∧ (- (1 # 4) < 1)%Q)
    ∧ ((-1 < (1 # 2) * inject_Z 2)%Q ∧ ((1 # 2) < 1)%Q).
Proof.
  apply (landmark_tuple_in_frame_iff 2 2 "Left" (0, mkLandmark (- (1 # 4)) (1 # 2) 0));
    lia.
Defined.

Lemma pixel_order_preserved_witness :
  py_int (py_mul_int (1 # 4) 640) <= py_int (py_mul_int (3 # 4) 640).
Proof.
  apply (pixel_order_preserved (1 # 4) (3 # 4) 640); [lia |].
  unfold Qle. simpl. lia.
Defined.

Lemma find_position_draws_circles_witness :
  let W := Demo.world (Some Demo.two_hands) 0 in
  ∃ W',
    find_position Demo.cv2_circle 1%positive 0 true 5 W
    = (Return (position_tuples 2 2 (Demo.hand_at (1 # 4) (1 # 4))), W')
    ∧ self W' = self W
    ∧ heap W' !! 1%positive
      = Some (draw_circles Demo.cv2_circle 2 2 5
                (enumerate (landmark (Demo.hand_at (1 # 4) (1 # 4)))) Demo.frame)
    ∧ ∀ p, p ≠ 1%positive → heap W' !! p = heap W !! p.
Proof.
  intros W.
  apply (find_position_draws_circles Demo.cv2_circle W 1%positive Demo.frame 0
           (Demo.hand_at (1 # 4) (1 # 4)) 5).
  - exact demo_circle_keeps_shape.
  - reflexivity.
  - simpl. lia.
  - reflexivity.
Defined.

Lemma find_position_index_error_witness :
  find_position Demo.cv2_circle 1%positive (-3) true 5
    (Demo.world (Some Demo.two_hands) 0)
  = (Raise IndexError, Demo.world (Some Demo.two_hands) 0).
Proof.
  apply find_position_index_error; [discriminate | simpl; lia].
Defined.

Lemma find_positions_lookup_witness :
  let W := Demo.world (Some Demo.two_hands) 0 in
  ∃ out rec,
    find_positions 1%positive W = (Return out, W)
    ∧ out !! 1%nat = Some rec
    ∧ rec !! 20%nat
      = Some [AInt (Z.of_nat 20);
              AInt (py_int (py_mul_int (3 # 4) (Z.of_nat (length (hd [] Demo.frame)))));
              AInt (py_int (py_mul_int (3 # 4) (Z.of_nat (length Demo.frame))));
              AFloat 0;
              AStr (hand_type_at (results (self W)) (Z.of_nat 1))].
Proof.
  intros W.
  apply (find_positions_lookup W 1%positive Demo.frame 1 20
           (Demo.hand_at (3 # 4) (3 # 4)) (mkLandmark (3 # 4) (3 # 4) 0)).
  - reflexivity.
  - exact demo_two_hands_covers.
  - reflexivity.
  - reflexivity.
Defined.

Lemma find_positions_label_from_handedness_witness :
  let W := Demo.world (Some Demo.two_hands) 0 in
  ∃ out rec,
    find_positions 1%positive W = (Return out, W)
    ∧ out !! 1%nat = Some rec
    ∧ length rec = length (landmark (Demo.hand_at (3 # 4) (3 # 4)))
    ∧ Forall (has_label (label (mkClassification (8 # 10) "Right"))) rec.
Proof.
  intros W.
  apply (find_positions_label_from_handedness W 1%positive Demo.frame 1
           (Demo.hand_at (3 # 4) (3 # 4))
           [mkHandedness [mkClassification (9 # 10) "Left"];
            mkHandedness [mkClassification (8 # 10) "Right"]]
           (mkHandedness [mkClassification (8 # 10) "Right"])
           (mkClassification (8 # 10) "Right") []).
  - reflexivity.
  - exact demo_two_hands_covers.
  - reflexivity.
  - reflexivity.
  - reflexivity.
  - reflexivity.
Defined.

Lemma find_positions_misaligned_handedness_witness :
  find_positions 1%positive (Demo.world (Some Demo.misaligned) 0)
  = (Raise IndexError, Demo.world (Some Demo.misaligned) 0).
Proof.
  apply (find_positions_misaligned_handedness
           (Demo.world (Some Demo.misaligned) 0) 1%positive Demo.frame).
  - reflexivity.
  - reflexivity.
  - simpl. lia.
Defined.

Lemma find_position_agrees_with_find_positions_witness :
  let W := Demo.world (Some Demo.two_hands) 0 in
  ∃ out rec W',
    find_positions 1%positive W = (Return out, W)
    ∧ out !! 1%nat = Some rec
    ∧ find_position Demo.cv2_circle 1%positive (Z.of_nat 1) true 5 W
      = (Return (map (take 3) rec), W').
Proof.
  intros W.
  apply (find_position_agrees_with_find_positions Demo.cv2_circle W 1%positive
           Demo.frame 1 (Demo.hand_at (3 # 4) (3 # 4)) true 5).
  - intros _. exact demo_circle_keeps_shape.
  - reflexivity.
  - exact demo_two_hands_covers.
  - reflexivity.
Defined.

Lemma find_hands_updates_results_witness :
  let W := Demo.world None (3 # 2) in
  ∃ out W',
    find_hands Demo.process Demo.draw_landmarks 1%positive true true W = (Return out, W')
    ∧ results (self W')
      = Some (Demo.process (hands (self W))
                (cv2_cvtColor_BGR2RGB (oriented true Demo.frame))).2
    ∧ hands (self W')
      = (Demo.process (hands (self W))
           (cv2_cvtColor_BGR2RGB (oriented true Demo.frame))).1
    ∧ mode (self W') = mode (self W)
    ∧ max_hands (self W') = max_hands (self W)
    ∧ detection_conf (self W') = detection_conf (self W)
    ∧ tracking_conf (self W') = tracking_conf (self W)
    ∧ prev_time (self W') = prev_time (self W)
    ∧ current_time (self W') = current_time (self W)
    ∧ fps (self W') = fps (self W).
Proof.
  intros W.
  apply (find_hands_updates_results Demo.process Demo.draw_landmarks W 1%positive
           Demo.frame true true).
  reflexivity.
Defined.

Lemma find_hands_then_find_positions_witness :
  let W := Demo.world None 0 in
  let res := (Demo.process (hands (self W))
                (cv2_cvtColor_BGR2RGB (oriented true Demo.frame))).2 in
  ∃ out W',
    find_hands Demo.process Demo.draw_landmarks 1%positive true true W = (Return out, W')
    ∧ find_positions out W'
      = (Return (hand_records (Z.of_nat (length Demo.frame))
                   (Z.of_nat (length (hd [] Demo.frame))) (Some res)), W')
    ∧ length (hand_records (Z.of_nat (length Demo.frame))
                (Z.of_nat (length (hd [] Demo.frame))) (Some res))
      = length (hands_of (Some res)).
Proof.
  intros W res.
  apply (find_hands_then_find_positions Demo.process Demo.draw_landmarks W 1%positive
           Demo.frame true true).
  - reflexivity.
  - intros _. exact demo_draw_keeps_shape.
  - exact (demo_left_label_covers (1 # 2) (1 # 2)).
Defined.

Lemma update_fps_same_timestamp_witness :
  update_fps (Demo.reading 1) (Demo.world None 1)
  = (Raise ZeroDivisionError,
     mkWorld (set_current_time (Demo.reading 1) (self (Demo.world None 1)))
       (heap (Demo.world None 1))).
Proof.
  apply (update_fps_same_timestamp (Demo.world None 1) (Demo.reading 1)); reflexivity.
Defined.

(** Recorded timestamp 0.4, reading 0.2: the rate is -5. *)
Lemma update_fps_clock_rollback_witness :
  ∃ n W',
    update_fps (Demo.reading (2 # 10)) (Demo.world None (4 # 10)) = (Return n, W')
    ∧ n <= 0
    ∧ fps (self W') = n
    ∧ prev_time (self W') = Demo.reading (2 # 10).
Proof.
  apply (update_fps_clock_rollback (Demo.world None (4 # 10)) (Demo.reading (2 # 10)));
    reflexivity.
Defined.

(** Readings 0.2, 0.4 and 0.6 on a fresh detector. *)
Lemma update_fps_three_calls_witness :
  let t1 := Demo.reading (2 # 10) in
  let t2 := Demo.reading (4 # 10) in
  let t3 := Demo.reading (6 # 10) in
  let W0 := mkWorld (__init__ (λ _ _ _ _, tt) false 2 (1 # 2) (1 # 2))
              ({[ 1%positive := Demo.frame ]} : gmap loc image) in
  let W1 := (update_fps t1 W0).2 in
  let W2 := (update_fps t2 W1).2 in
  (update_fps t1 W0).1 = Return 0
  ∧ (update_fps t2 W1).1 = Return (py_int (float_value (rate_of t1 t2)))
  ∧ (update_fps t3 W2).1 = Return (py_int (float_value (rate_of t2 t3)))
  ∧ fps (self (update_fps t3 W2).2) = py_int (float_value (rate_of t2 t3)).
Proof.
  intros t1 t2 t3.
  apply (update_fps_three_calls (λ _ _ _ _, tt) false 2 (1 # 2) (1 # 2)
           {[ 1%positive := Demo.frame ]} t1 t2 t3); reflexivity.
Defined.

(** On those readings the binary64 rates truncate to 5 and 5 (the elapsed
    times are the floats nearest to 0.2 and just below it). *)
Lemma update_fps_rates_of_tenths :
  py_int (float_value (rate_of (Demo.reading (2 # 10)) (Demo.reading (4 # 10)))) = 5
  ∧ py_int (float_value (rate_of (Demo.reading (4 # 10)) (Demo.reading (6 # 10)))) = 5.
Proof. split; reflexivity. Qed.

Lemma display_fps_in_place_witness :
  let W := Demo.world None 1 in
  ∃ W',
    display_fps Demo.cv2_putText 1%positive (10, 30) 0 1 (0, 255, 0) 2 W
    = (Return 1%positive, W')
    ∧ self W' = self W
    ∧ heap W' !! 1%positive
      = Some (Demo.cv2_putText Demo.frame ("FPS: " +:+ pretty (fps (self W)))
                (10, 30) 0 1 (0, 255, 0) 2)
    ∧ ∀ p, p ≠ 1%positive → heap W' !! p = heap W !! p.
Proof.
  intros W.
  apply (display_fps_in_place Demo.cv2_putText W 1%positive Demo.frame
           (10, 30) 0 1 (0, 255, 0) 2).
  reflexivity.
Defined.

Lemma update_fps_then_display_fps_witness :
  let W := Demo.world None 1 in
  ∃ W2,
    display_fps Demo.cv2_putText 1%positive (10, 30) 0 1 (0, 255, 0) 2
      (update_fps (Demo.reading (13 # 8)) W).2
    = (Return 1%positive, W2)
    ∧ heap W2 !! 1%positive
      = Some (Demo.cv2_putText Demo.frame (fps_text 1) (10, 30) 0 1 (0, 255, 0) 2).
Proof.
  intros W.
  apply (update_fps_then_display_fps Demo.cv2_putText W
           (update_fps (Demo.reading (13 # 8)) W).2
           1%positive Demo.frame (Demo.reading (13 # 8)) 1 (10, 30) 0 1 (0, 255, 0) 2);
    reflexivity.
Defined.
